(** * Blueprint: the search for configuration files ([blueprint/backend/files.py])

    A shallow embedding of the file-classification code of
    [src/blueprint/backend/files.py] (Python 2) and the properties its
    specification states about it.

    Python 2 [str] values (path names, file contents, check sums) are byte
    strings: they are modelled by [string], whose characters are the 256
    values of [ascii].  A [unicode] value is a list of code points.
    Exceptions are explicit: a fallible function returns a [result].
    Operating-system and library calls ([open], [os.lstat], [os.readlink],
    [glob.glob], [fnmatch.fnmatch], [hashlib.md5], ...) are the fields of a
    record [World], the state of the machine the scan runs on. *)

From Stdlib Require Import ZArith NArith Ascii String List Lia Bool.
From Stdlib Require OctalString.
From stdpp Require Import base option list gmap strings.

#[local] Open Scope string_scope.
#[local] Open Scope Z_scope.

(** ** Exceptions *)

Inductive exn : Set :=
| IOError            (* raised by [open] and [read] *)
| OSError            (* raised by [os.lstat] and [os.readlink] *)
| IndexError         (* [s[0]] or [s[-1]] on an empty string *)
| RuntimeError.      (* maximum recursion depth exceeded *)

Inductive result (A : Type) : Type :=
| Ok (a : A)
| Raise (e : exn).
Arguments Ok {A} a.
Arguments Raise {A} e.

#[global] Instance result_ret : MRet result := @Ok.
#[global] Instance result_bind : MBind result :=
  λ A B f m, match m with Ok a => f a | Raise e => Raise e end.
#[global] Instance result_fmap : FMap result :=
  λ A B f m, match m with Ok a => Ok (f a) | Raise e => Raise e end.

Definition is_Ok {A} (r : result A) : bool :=
  match r with Ok _ => true | Raise _ => false end.

(** An operating-system call that fails raises the given exception. *)
Definition or_raise {A} (e : exn) (o : option A) : result A :=
  match o with Some a => Ok a | None => Raise e end.

#[global] Instance exn_eq_dec : EqDecision exn.
Proof. solve_decision. Defined.

(** ** Python string operations used by the module *)

Module Py.

Definition LF : ascii := "010"%char.
Definition slash : ascii := "/"%char.

(** The characters [str.rstrip()] removes: space, tab, line feed,
    vertical tab, form feed, carriage return. *)
Definition is_space (c : ascii) : bool :=
  let n := N_of_ascii c in
  (n =? 32)%N || ((9 <=? n)%N && (n <=? 13)%N).

(** [s.rstrip(chars)]: drop the longest suffix made of [strip] characters. *)
Fixpoint rstrip_by (strip : ascii → bool) (s : string) : string :=
  match s with
  | EmptyString => EmptyString
  | String c s' =>
      match rstrip_by strip s' with
      | EmptyString => if strip c then EmptyString else String c EmptyString
      | r => String c r
      end
  end.

Definition rstrip (s : string) : string := rstrip_by is_space s.
Definition rstrip_slash (s : string) : string := rstrip_by (Ascii.eqb slash) s.

(** [s[0]] *)
Definition first (s : string) : result ascii :=
  match s with
  | EmptyString => Raise IndexError
  | String c _ => Ok c
  end.

(** [s[-1]] *)
Fixpoint last (s : string) : result ascii :=
  match s with
  | EmptyString => Raise IndexError
  | String c EmptyString => Ok c
  | String _ s' => last s'
  end.

(** [s[n:]] *)
Fixpoint drop (n : nat) (s : string) : string :=
  match n, s with
  | O, _ => s
  | S _, EmptyString => EmptyString
  | S n', String _ s' => drop n' s'
  end.

(** [s[0:n]] *)
Fixpoint take (n : nat) (s : string) : string :=
  match n, s with
  | O, _ => EmptyString
  | S _, EmptyString => EmptyString
  | S n', String c s' => String c (take n' s')
  end.

(** [s.startswith(p)] *)
Definition startswith (s p : string) : bool := String.prefix p s.

(** [s.endswith(p)] *)
Definition endswith (s p : string) : bool :=
  (String.length p <=? String.length s)%nat
  && String.eqb (drop (String.length s - String.length p) s) p.

(** [s.find(sub)]: the first index of [sub] in [s], or -1. *)
Definition find (s sub : string) : Z :=
  match String.index 0 sub s with
  | Some n => Z.of_nat n
  | None => -1
  end.

(** [s.split(sep)[0]]: the part of [s] before the first [sep]. *)
Definition split_head (s sep : string) : string :=
  match String.index 0 sep s with
  | Some n => take n s
  | None => s
  end.

(** [os.path.basename(p)]: what follows the last slash. *)
Fixpoint basename_from (acc s : string) : string :=
  match s with
  | EmptyString => acc
  | String c s' =>
      if Ascii.eqb c slash then basename_from s' s' else basename_from acc s'
  end.
Definition basename (p : string) : string := basename_from p p.

(** [os.path.join(a, b)] of [posixpath]. *)
Definition path_join (a b : string) : string :=
  if startswith b "/" then b
  else if String.eqb a "" || endswith a "/" then a +:+ b
  else a +:+ "/" +:+ b.

(** Iterating over an open file yields its lines, each with its line
    feed when it has one. *)
Fixpoint lines_from (cur : string → string) (s : string) : list string :=
  match s with
  | EmptyString =>
      match cur EmptyString with EmptyString => [] | l => [l] end
  | String c s' =>
      if Ascii.eqb c LF
      then cur (String c EmptyString) :: lines_from (λ x, x) s'
      else lines_from (λ x, cur (String c x)) s'
  end.
Definition lines (s : string) : list string := lines_from (λ x, x) s.

End Py.

(** ** The machine the scan runs on *)

(** The fields of [os.lstat]'s result that the module reads.  [st_ctime]
    is a time stamp of which only equality is used; it is an integer
    count of clock ticks here. *)
Record stat_result : Set := mk_stat {
  st_mode : Z;
  st_uid : Z;
  st_gid : Z;
  st_ctime : Z
}.

Record World : Type := mk_world {
  (** [os.walk('/etc')]: the triples (dirpath, dirnames, filenames) *)
  os_walk : list (string * list string * list string);
  (** [os.lstat(p)]; [None] when it raises [OSError] *)
  os_lstat : string → option stat_result;
  (** [open(p).read()]; [None] when it raises [IOError] *)
  read_file : string → option string;
  (** [os.readlink(p)]; [None] when it raises [OSError] *)
  os_readlink : string → option string;
  (** [os.path.isdir(p)] *)
  os_path_isdir : string → bool;
  (** [os.path.expanduser(p)] *)
  os_path_expanduser : string → string;
  (** [glob.glob(pattern)] *)
  glob_glob : string → list string;
  (** [fnmatch.fnmatch(name, pattern)] *)
  fnmatch_fnmatch : string → string → bool;
  (** [hashlib.md5(s).hexdigest()] *)
  md5_hexdigest : string → string;
  (** [s.decode('UTF-8')]; [None] when it raises [UnicodeDecodeError] *)
  decode_utf8 : string → option (list N);
  (** [pwd.getpwuid(uid).pw_name]; [None] when it raises [KeyError] *)
  pw_name : Z → option string;
  (** [grp.getgrgid(gid).gr_name]; [None] when it raises [KeyError] *)
  gr_name : Z → option string;
  (** how many more nested calls the interpreter allows before it raises
      [RuntimeError] (maximum recursion depth exceeded) *)
  recursion_limit : nat
}.

(** [for line in open(p)] *)
Definition open_lines (W : World) (p : string) : result (list string) :=
  or_raise IOError (Py.lines <$> read_file W p).

(** ** The default list of ignore patterns *)

Definition IGNORE : list string :=
  [ "*.dpkg-*"; "/etc/.git"; "/etc/.pwd.lock"; "/etc/alternatives";
    "/etc/apparmor"; "/etc/apparmor.d"; "/etc/ca-certificates.conf";
    "/etc/dpkg/origins/default"; "/etc/fstab"; "/etc/group-"; "/etc/group";
    "/etc/gshadow-"; "/etc/gshadow"; "/etc/hostname";
    "/etc/init.d/.legacy-bootordering"; "/etc/initramfs-tools/conf.d/resume";
    "/etc/ld.so.cache"; "/etc/localtime"; "/etc/mailcap"; "/etc/mtab";
    "/etc/modules"; "/etc/motd"; "/etc/network/interfaces"; "/etc/passwd-";
    "/etc/passwd"; "/etc/popularity-contest.conf"; "/etc/resolv.conf";
    "/etc/rc0.d"; "/etc/rc1.d"; "/etc/rc2.d"; "/etc/rc3.d"; "/etc/rc4.d";
    "/etc/rc5.d"; "/etc/rc6.d"; "/etc/rcS.d"; "/etc/shadow-"; "/etc/shadow";
    "/etc/ssl/certs"; "/etc/timezone";
    "/etc/udev/rules.d/70-persistent-*.rules" ].

(** ** [_ignore]: the ignore rule engine *)

Section Ignore.
Context (W : World).

(** One line of [~/.blueprintignore] appended to the cache. *)
Definition add_pattern (cache : list (string * bool)) (line : string)
  : list (string * bool) :=
  let pattern := Py.rstrip line in
  match pattern with
  | EmptyString => cache
  | String c rest =>
      if Ascii.eqb c "#" then cache
      else if Ascii.eqb c "!" then cache ++ [(rest, true)]
      else cache ++ [(pattern, false)]
  end.

(** [_ignore._cache]: the built-in patterns, then the user's, in file
    order; a file that cannot be opened adds nothing. *)
Definition _ignore_cache : list (string * bool) :=
  let cache := (λ pattern, (pattern, false)) <$> IGNORE in
  match open_lines W (os_path_expanduser W "~/.blueprintignore") with
  | Ok ls => fold_left add_pattern ls cache
  | Raise _ => cache
  end.

(** The loop over [glob.glob(...)] of [match]. *)
Fixpoint match_glob (filename : string) (ps : list string) : bool :=
  match ps with
  | [] => false
  | p :: ps' =>
      if String.eqb filename p || Py.startswith filename (p +:+ "/")
      then true
      else match_glob filename ps'
  end.

(** The local function [match] of [_ignore]. *)
Definition match_ (basename filename pattern : string) : result bool :=
  c ← Py.last pattern;
  let dir_only := Ascii.eqb Py.slash c in
  let pattern := Py.rstrip_slash pattern in
  if Py.find pattern "/" =? -1 then
    if fnmatch_fnmatch W basename pattern
    then Ok (if dir_only then os_path_isdir W filename else true)
    else Ok false
  else
    Ok (match_glob filename (glob_glob W (Py.path_join "/etc" pattern))).

(** The loop of [_ignore] over the cached rules. *)
Fixpoint _ignore_rules (rules : list (string * bool))
    (basename filename : string) (ignored : bool) : result bool :=
  match rules with
  | [] => Ok ignored
  | (pattern, negate) :: rules' =>
      if negb (Bool.eqb ignored negate)
      then _ignore_rules rules' basename filename ignored
      else if ignored then
        m ← match_ basename filename pattern;
        if m : bool then Ok false
        else _ignore_rules rules' basename filename ignored
      else
        m ← match_ basename filename pattern;
        _ignore_rules rules' basename filename m
  end.

Definition _ignore (filename : string) (ignored : bool) : result bool :=
  _ignore_rules _ignore_cache (Py.basename filename) filename ignored.

End Ignore.

(** ** The static table of path names and MD5 sums *)

Definition MD5SUMS : gmap string string :=
  list_to_map
  [ ("/etc/adduser.conf", "/usr/share/adduser/adduser.conf");
    ("/etc/apparmor.d/tunables/home.d/ubuntu", "2a88811f7b763daa96c20b20269294a4");
    ("/etc/chatscripts/provider", "/usr/share/ppp/provider.chatscript");
    ("/etc/default/console-setup", "0fb6cec686d0410993bdf17192bee7d6");
    ("/etc/default/grub", "ee9df6805efb2a7d1ba3f8016754a119");
    ("/etc/default/irqbalance", "7e10d364b9f72b11d7bf7bd1cfaeb0ff");
    ("/etc/default/locale", "164aba1ef1298affaa58761647f2ceba");
    ("/etc/default/rcS", "/usr/share/initscripts/default.rcS");
    ("/etc/environment", "44ad415fac749e0c39d6302a751db3f2");
    ("/etc/hosts.allow", "8c44735847c4f69fb9e1f0d7a32e94c1");
    ("/etc/hosts.deny", "92a0a19db9dc99488f00ac9e7b28eb3d");
    ("/etc/initramfs-tools/modules", "/usr/share/initramfs-tools/modules");
    ("/etc/inputrc", "/usr/share/readline/inputrc");
    ("/etc/iscsi/iscsid.conf", "6c6fd718faae84a4ab1b276e78fea471");
    ("/etc/kernel-img.conf", "f1ed9c3e91816337aa7351bdf558a442");
    ("/etc/ld.so.conf", "4317c6de8564b68d628c21efa96b37e4");
    ("/etc/networks", "/usr/share/base-files/networks");
    ("/etc/nsswitch.conf", "/usr/share/base-files/nsswitch.conf");
    ("/etc/ppp/chap-secrets", "faac59e116399eadbb37644de6494cc4");
    ("/etc/ppp/pap-secrets", "698c4d412deedc43dde8641f84e8b2fd");
    ("/etc/ppp/peers/provider", "/usr/share/ppp/provider.peer");
    ("/etc/profile", "/usr/share/base-files/profile");
    ("/etc/python/debian_config", "7f4739eb8858d231601a5ed144099ac8");
    ("/etc/rc.local", "10fd9f051accb6fd1f753f2d48371890");
    ("/etc/rsyslog.d/50-default.conf", "/usr/share/rsyslog/50-default.conf");
    ("/etc/security/opasswd", "d41d8cd98f00b204e9800998ecf8427e");
    ("/etc/sgml/xml-core.cat", "bcd454c9bf55a3816a134f9766f5928f");
    ("/etc/shells", "0e85c87e09d716ecb03624ccff511760");
    ("/etc/ssh/sshd_config", "e24f749808133a27d94fda84a89bb27b");
    ("/etc/sudoers", "02f74ccbec48997f402a063a172abb48");
    ("/etc/ufw/after.rules", "/usr/share/ufw/after.rules");
    ("/etc/ufw/after6.rules", "/usr/share/ufw/after6.rules");
    ("/etc/ufw/before.rules", "/usr/share/ufw/before.rules");
    ("/etc/ufw/before6.rules", "/usr/share/ufw/before6.rules");
    ("/etc/ufw/ufw.conf", "/usr/share/ufw/ufw.conf") ].
Arguments MD5SUMS : simpl never.

(** ** The package data base *)

Section Dpkg.
Context (W : World).

(** One line of a [.list] file recorded in the cache. *)
Definition add_owner (package : string)
    (cache : gmap string (list string)) (line : string)
  : gmap string (list string) :=
  let name := Py.rstrip line in
  match cache !! name with
  | Some packages => <[name := (packages ++ [package])%list]> cache
  | None => <[name := [package]]> cache
  end.

(** The loop over [glob.glob('/var/lib/dpkg/info/*.list')]; [open(p)] is
    not guarded there. *)
Fixpoint dpkg_lists (ps : list string) (cache : gmap string (list string))
  : result (gmap string (list string)) :=
  match ps with
  | [] => Ok cache
  | p :: ps' =>
      let package := Py.split_head (Py.basename p) ".list" in
      ls ← open_lines W p;
      dpkg_lists ps' (fold_left (add_owner package) ls cache)
  end.

(** [_dpkg_query_S._cache] *)
Definition _dpkg_query_S_cache : result (gmap string (list string)) :=
  dpkg_lists (glob_glob W "/var/lib/dpkg/info/*.list") ∅.

(** The look-up of [_dpkg_query_S]: [depth] bounds the nested calls the
    interpreter still allows. *)
Fixpoint _dpkg_query_S_in (cache : gmap string (list string))
    (depth : nat) (filename : string) : result (list string) :=
  match depth with
  | O => Raise RuntimeError
  | S depth' =>
      match cache !! filename with
      | Some packages => Ok packages
      | None =>
          match os_readlink W filename with
          | None => Ok []
          | Some target =>
              match _dpkg_query_S_in cache depth' target with
              | Raise OSError => Ok []
              | r => r
              end
          end
      end
  end.

Definition _dpkg_query_S (filename : string) : result (list string) :=
  cache ← _dpkg_query_S_cache;
  _dpkg_query_S_in cache (recursion_limit W) filename.

(** The regular expression of [_dpkg_status_md5sum] matched against a
    line of [/var/lib/dpkg/status]: a space, a run of word characters,
    slashes, colons, dots and dashes (group 1), a space, exactly 32 word
    characters (group 2), optionally a space and a run of word
    characters, and the end of the line.  The result is groups 1 and 2. *)
Definition is_word (c : ascii) : bool :=
  let n := N_of_ascii c in
  ((48 <=? n) && (n <=? 57) || (65 <=? n) && (n <=? 90)
   || (97 <=? n) && (n <=? 122) || (n =? 95))%N.

Definition is_path_char (c : ascii) : bool :=
  is_word c || Ascii.eqb c "/" || Ascii.eqb c ":" || Ascii.eqb c "."
  || Ascii.eqb c "-".

Fixpoint span (p : ascii → bool) (s : string) : string * string :=
  match s with
  | EmptyString => (EmptyString, EmptyString)
  | String c s' =>
      if p c then let '(a, b) := span p s' in (String c a, b)
      else (EmptyString, s)
  end.

Fixpoint all_chars (p : ascii → bool) (s : string) : bool :=
  match s with
  | EmptyString => true
  | String c s' => p c && all_chars p s'
  end.

(** [$]: the end of the string, or just before its final line feed. *)
Definition at_end (s : string) : bool :=
  String.eqb s "" || String.eqb s (String Py.LF "").

Definition status_match (line : string) : option (string * string) :=
  match line with
  | String " " rest =>
      let '(g1, rest1) := span is_path_char rest in
      match rest1 with
      | String " " rest2 =>
          let g2 := Py.take 32 rest2 in
          let rest3 := Py.drop 32 rest2 in
          if (String.length g2 =? 32)%nat && all_chars is_word g2 then
            if at_end rest3 then Some (g1, g2)
            else match rest3 with
                 | String " " rest4 =>
                     if at_end (snd (span is_word rest4))
                     then Some (g1, g2) else None
                 | _ => None
                 end
          else None
      | _ => None
      end
  | _ => None
  end.

Definition add_status (cache : gmap string (list string)) (line : string)
  : gmap string (list string) :=
  match status_match line with
  | None => cache
  | Some (name, md5sum) =>
      match cache !! name with
      | Some l => <[name := (l ++ [md5sum])%list]> cache
      | None => <[name := [md5sum]]> cache
      end
  end.

(** [_dpkg_status_md5sum._cache] *)
Definition _dpkg_status_md5sum_cache : gmap string (list string) :=
  match open_lines W "/var/lib/dpkg/status" with
  | Ok ls => fold_left add_status ls ∅
  | Raise _ => ∅
  end.

Definition _dpkg_status_md5sum (filename : string) : list string :=
  default [] (_dpkg_status_md5sum_cache !! filename).

(** The loop of [_dpkg_md5sum] over the lines of a [.md5sums] file. *)
Fixpoint md5sums_scan (suffix : string) (ls : list string) : option string :=
  match ls with
  | [] => None
  | line :: ls' =>
      if Py.endswith line suffix then Some (Py.take 32 line)
      else md5sums_scan suffix ls'
  end.

(** [_dpkg_md5sum]; Python's [None] is [None]. *)
Definition _dpkg_md5sum (package filename : string) : option string :=
  match open_lines W ("/var/lib/dpkg/info/" +:+ package +:+ ".md5sums") with
  | Ok ls => md5sums_scan (Py.drop 1 filename +:+ String Py.LF "") ls
  | Raise _ => None
  end.

(** The entry of [MD5SUMS] as [_get_md5sums] appends it: a value that
    starts with a slash names a file whose content is hashed; when that
    file cannot be read the value itself is appended. *)
Definition md5sums_entry (md5sum : string) : result string :=
  c ← Py.first md5sum;
  if Ascii.eqb "/" c then
    match read_file W md5sum with
    | Some content => Ok (md5_hexdigest W content)
    | None => Ok md5sum
    end
  else Ok md5sum.

(** [_get_md5sums]: the list [md5sums] before [set(...)]. *)
Definition _get_md5sums_list (filename : string)
  : result (list (option string)) :=
  packages ← _dpkg_query_S filename;
  let md5sums :=
    match packages with
    | [] => []
    | _ => ((Some <$> _dpkg_status_md5sum filename)
            ++ ((λ package, _dpkg_md5sum package filename) <$> packages))%list
    end in
  match MD5SUMS !! filename with
  | Some md5sum =>
      md5sum' ← md5sums_entry md5sum;
      Ok (md5sums ++ [Some md5sum'])%list
  | None => Ok md5sums
  end.

Definition _get_md5sums (filename : string)
  : result (gset (option string)) :=
  list_to_set <$> _get_md5sums_list filename.

End Dpkg.

(** ** [_is_known_file]: the content authenticity check *)

Section Known.
Context (W : World).

(** The loop of [_is_known_file] over the set of MD5 sums; Python's
    [None] never equals a digest. *)
Fixpoint known_md5sums (digest filename : string)
    (md5sums : list (option string)) : result bool :=
  match md5sums with
  | [] => Ok false
  | md5sum :: md5sums' =>
      if decide (Some digest = md5sum) then
        ig ← _ignore W filename true;
        if ig : bool then Ok true
        else known_md5sums digest filename md5sums'
      else known_md5sums digest filename md5sums'
  end.

Definition _is_known_file (filename content : string) : result bool :=
  packages ← _dpkg_query_S W filename;
  if existsb (String.eqb "base-files") packages then Ok true
  else
    md5sums ← _get_md5sums W filename;
    known_md5sums (md5_hexdigest W content) filename (elements md5sums).

End Known.

(** ** [base64.b64encode] and [base64.b64decode] *)

Module Base64.

Definition alphabet : string :=
  "ABCDEFGHIJKLMNOPQRSTUVWXYZabcdefghijklmnopqrstuvwxyz0123456789+/".

Definition pad : ascii := "="%char.

(** The character of a six-bit value. *)
Definition char (n : N) : ascii :=
  default pad (String.get (N.to_nat n) alphabet).

Fixpoint index_in (c : ascii) (s : string) (i : N) : option N :=
  match s with
  | EmptyString => None
  | String c' s' => if Ascii.eqb c c' then Some i else index_in c s' (i + 1)%N
  end.

(** The six-bit value of a character of the alphabet. *)
Definition value (c : ascii) : option N := index_in c alphabet 0%N.

Definition byte (n : N) : ascii := ascii_of_N n.

(** [base64.b64encode(s)]: three bytes give four characters; one or two
    remaining bytes give a padded group. *)
Fixpoint b64encode (s : string) : string :=
  match s with
  | EmptyString => EmptyString
  | String a EmptyString =>
      let x := N_of_ascii a in
      String (char (x / 4))
        (String (char (x mod 4 * 16)) (String pad (String pad EmptyString)))
  | String a (String b EmptyString) =>
      let x := N_of_ascii a in
      let y := N_of_ascii b in
      String (char (x / 4))
        (String (char (x mod 4 * 16 + y / 16))
           (String (char (y mod 16 * 4)) (String pad EmptyString)))
  | String a (String b (String c rest)) =>
      let x := N_of_ascii a in
      let y := N_of_ascii b in
      let z := N_of_ascii c in
      String (char (x / 4))
        (String (char (x mod 4 * 16 + y / 16))
           (String (char (y mod 16 * 4 + z / 64))
              (String (char (z mod 64)) (b64encode rest))))
  end%N.

(** [base64.b64decode(s)] on canonical input (RFC 4648, section 4);
    anything else is refused with [None]. *)
Fixpoint b64decode (s : string) : option string :=
  match s with
  | EmptyString => Some EmptyString
  | String c1 (String c2 (String c3 (String c4 rest))) =>
      v1 ← value c1;
      v2 ← value c2;
      if Ascii.eqb c4 pad then
        match rest with
        | EmptyString =>
            if Ascii.eqb c3 pad then
              if (v2 mod 16 =? 0)%N
              then Some (String (byte (v1 * 4 + v2 / 16)) EmptyString)
              else None
            else
              v3 ← value c3;
              if (v3 mod 4 =? 0)%N
              then Some (String (byte (v1 * 4 + v2 / 16))
                           (String (byte (v2 mod 16 * 16 + v3 / 4))
                              EmptyString))
              else None
        | _ => None
        end
      else
        v3 ← value c3;
        v4 ← value c4;
        tail ← b64decode rest;
        Some (String (byte (v1 * 4 + v2 / 16))
                (String (byte (v2 mod 16 * 16 + v3 / 4))
                   (String (byte (v3 mod 4 * 64 + v4)) tail)))
  | _ => None
  end%N.

End Base64.

(** ** [files]: the walk over [/etc] *)

(** What a record of [b.files] holds as [content]: a byte string, or the
    [unicode] text of a file that decodes as UTF-8. *)
Inductive content_t : Set :=
| Str (s : string)
| Unicode (u : list N).

(** [owner] and [group]: the name, or the numeric id when it has none. *)
Inductive name_or_id : Set :=
| Name (s : string)
| Id (n : Z).

Record FileRecord : Set := mk_file {
  content : content_t;
  encoding : string;
  group : name_or_id;
  mode : string;
  owner : name_or_id
}.

(** [stat.S_ISLNK], [stat.S_ISREG] *)
Definition S_IFMT (mode : Z) : Z := Z.land mode 61440.   (* 0o170000 *)
Definition S_ISLNK (mode : Z) : bool := S_IFMT mode =? 40960.   (* 0o120000 *)
Definition S_ISREG (mode : Z) : bool := S_IFMT mode =? 32768.   (* 0o100000 *)

(** ['{0:o}'.format(n)] *)
Definition format_o (n : Z) : string :=
  match n with
  | Z0 => "0"
  | Zpos p => OctalString.Raw.of_pos p ""
  | Zneg p => String "-" (OctalString.Raw.of_pos p "")
  end.

Section Files.
Context (W : World).

(** [ctimes[t] += 1] on a [defaultdict(lambda: 0)] *)
Definition ctimes_incr (ctimes : gmap Z Z) (t : Z) : gmap Z Z :=
  <[t := default 0 (ctimes !! t) + 1]> ctimes.

(** [ctimes[t]] *)
Definition ctimes_get (ctimes : gmap Z Z) (t : Z) : Z :=
  default 0 (ctimes !! t).

(** The list [files] of a directory: every path name with its [lstat]. *)
Fixpoint lstat_files (dirpath : string) (filenames : list string)
  : result (list (string * stat_result)) :=
  match filenames with
  | [] => Ok []
  | filename :: filenames' =>
      let pathname := Py.path_join dirpath filename in
      s ← or_raise OSError (os_lstat W pathname);
      rest ← lstat_files dirpath filenames';
      Ok ((pathname, s) :: rest)
  end.

(** The two loops that fill [ctimes]. *)
Fixpoint ctimes_files (files : list (string * stat_result))
    (ctimes : gmap Z Z) : gmap Z Z :=
  match files with
  | [] => ctimes
  | (_, s) :: files' => ctimes_files files' (ctimes_incr ctimes (st_ctime s))
  end.

Fixpoint ctimes_dirs (dirpath : string) (dirnames : list string)
    (ctimes : gmap Z Z) : result (gmap Z Z) :=
  match dirnames with
  | [] => Ok ctimes
  | dirname :: dirnames' =>
      s ← or_raise OSError (os_lstat W (Py.path_join dirpath dirname));
      ctimes_dirs dirpath dirnames' (ctimes_incr ctimes (st_ctime s))
  end.

(** The default state handed to [_ignore] for a file: the directory is
    ignored, or the file shares its ctime. *)
Definition ignore_seed (ignored : bool) (ctimes : gmap Z Z)
    (s : stat_result) : bool :=
  ignored || (1 <? ctimes_get ctimes (st_ctime s)).

(** The legacy condition on DevStructure's default [/etc/fuse.conf]:
    [true] when the loop goes on to the next file. *)
Definition fuse_conf_default (filename : string) : result bool :=
  if String.eqb "/etc/fuse.conf" filename then
    match read_file W filename with
    | Some c =>
        if String.eqb ("user_allow_other" +:+ String Py.LF "") c
        then _ignore W filename true
        else Ok false
    | None => Ok false
    end
  else Ok false.

Definition file_record (s : stat_result) (content : content_t)
    (encoding : string) : FileRecord :=
  {| content := content;
     encoding := encoding;
     group := match gr_name W (st_gid s) with
              | Some name => Name name
              | None => Id (st_gid s)
              end;
     mode := format_o (st_mode s);
     owner := match pw_name W (st_uid s) with
              | Some name => Name name
              | None => Id (st_uid s)
              end |}.

(** What follows the authenticity check in the loop body: [content] is
    what [open(filename).read()] returned. *)
Definition file_content (filename : string) (s : stat_result)
    (content : string) : result (option (content_t * string)) :=
  if S_ISLNK (st_mode s) then
    content ← or_raise OSError (os_readlink W filename);
    if String.eqb "/lib/init/upstart-job" content then Ok None
    else if Py.startswith content "/etc/alternatives/" then Ok None
    else Ok (Some (Str content, "plain"))
  else if S_ISREG (st_mode s) then
    match decode_utf8 W content with
    | Some text => Ok (Some (Unicode text, "plain"))
    | None => Ok (Some (Str (Base64.b64encode content), "base64"))
    end
  else Ok None.

(** The body of the loop over the files of a directory: [None] when the
    loop goes on to the next file, the record stored in [b.files]
    otherwise. *)
Definition files_entry (ignored : bool) (ctimes : gmap Z Z)
    (filename : string) (s : stat_result) : result (option FileRecord) :=
  ig ← _ignore W filename (ignore_seed ignored ctimes s);
  if ig : bool then Ok None
  else
    match read_file W filename with
    | None => Ok None
    | Some content =>
        known ← _is_known_file W filename content;
        if known : bool then Ok None
        else
          legacy ← fuse_conf_default filename;
          if legacy : bool then Ok None
          else
            ce ← file_content filename s content;
            match ce with
            | None => Ok None
            | Some (content, encoding) =>
                Ok (Some (file_record s content encoding))
            end
    end.

Fixpoint files_loop (ignored : bool) (ctimes : gmap Z Z)
    (files : list (string * stat_result)) (b : gmap string FileRecord)
  : result (gmap string FileRecord) :=
  match files with
  | [] => Ok b
  | (filename, s) :: files' =>
      r ← files_entry ignored ctimes filename s;
      match r with
      | None => files_loop ignored ctimes files' b
      | Some record => files_loop ignored ctimes files' (<[filename := record]> b)
      end
  end.

(** The body of the loop over [os.walk('/etc')]. *)
Definition files_dir (dirpath : string) (dirnames filenames : list string)
    (b : gmap string FileRecord) : result (gmap string FileRecord) :=
  ignored ← _ignore W dirpath false;
  files ← lstat_files dirpath filenames;
  ctimes ← ctimes_dirs dirpath dirnames (ctimes_files files ∅);
  files_loop ignored ctimes files b.

Fixpoint files_walk (walk : list (string * list string * list string))
    (b : gmap string FileRecord) : result (gmap string FileRecord) :=
  match walk with
  | [] => Ok b
  | (dirpath, dirnames, filenames) :: walk' =>
      b' ← files_dir dirpath dirnames filenames b;
      files_walk walk' b'
  end.

(** [files(b)]: [b.files] after the scan. *)
Definition files (b : gmap string FileRecord)
  : result (gmap string FileRecord) :=
  files_walk (os_walk W) b.

End Files.

(** ** A machine to run the scan on

    [Host.machine] builds a [World] from tables: what the walk yields, the
    [lstat] of each entry, what each file reads as, the symbolic links and
    the directories.  [fnmatch] and [glob] are given for patterns without
    brackets, MD5 by the digests of the contents present, and UTF-8
    decoding by the decoder of CPython 2. *)

Module Host.

(** Shell-style matching with [*] and [?]; [glob] does not let them
    match a slash, [fnmatch] does. *)
Fixpoint wild (cross : bool) (pat name : string) : bool :=
  match pat with
  | EmptyString => match name with EmptyString => true | _ => false end
  | String p pat' =>
      if Ascii.eqb p "*" then
        (fix star (n : string) : bool :=
           wild cross pat' n
           || match n with
              | EmptyString => false
              | String d n' =>
                  (cross || negb (Ascii.eqb d "/")) && star n'
              end) name
      else
        match name with
        | EmptyString => false
        | String d name' =>
            (if Ascii.eqb p "?" then cross || negb (Ascii.eqb d "/")
             else Ascii.eqb p d)
            && wild cross pat' name'
        end
  end.

Fixpoint assoc {A} (l : list (string * A)) (k : string) : option A :=
  match l with
  | [] => None
  | (k', v) :: l' => if String.eqb k k' then Some v else assoc l' k
  end.

(** The lines of a text file. *)
Fixpoint text (ls : list string) : string :=
  match ls with
  | [] => ""
  | l :: ls' => l +:+ String Py.LF (text ls')
  end.

Definition continuation (c : ascii) : bool :=
  let n := N_of_ascii c in ((128 <=? n) && (n <=? 191))%N.

(** [s.decode('UTF-8')] of CPython 2: sequences of one to four bytes,
    no overlong form, nothing above U+10FFFF. *)
Fixpoint utf8 (s : string) : option (list N) :=
  match s with
  | EmptyString => Some []
  | String a rest =>
      let x := N_of_ascii a in
      if (x <? 128)%N then cons x <$> utf8 rest
      else if ((194 <=? x) && (x <=? 223))%N then
        match rest with
        | String b rest' =>
            let y := N_of_ascii b in
            if continuation b
            then cons ((x - 192) * 64 + (y - 128))%N <$> utf8 rest'
            else None
        | _ => None
        end
      else if ((224 <=? x) && (x <=? 239))%N then
        match rest with
        | String b (String c rest') =>
            let y := N_of_ascii b in
            let z := N_of_ascii c in
            if continuation b && continuation c
               && negb ((x =? 224) && (y <? 160))%N
            then cons (((x - 224) * 64 + (y - 128)) * 64 + (z - 128))%N
                   <$> utf8 rest'
            else None
        | _ => None
        end
      else if ((240 <=? x) && (x <=? 244))%N then
        match rest with
        | String b (String c (String d rest')) =>
            let y := N_of_ascii b in
            let z := N_of_ascii c in
            let t := N_of_ascii d in
            if continuation b && continuation c && continuation d
               && negb ((x =? 240) && (y <? 144))%N
               && negb ((x =? 244) && (143 <? y))%N
            then cons ((((x - 240) * 64 + (y - 128)) * 64 + (z - 128)) * 64
                       + (t - 128))%N <$> utf8 rest'
            else None
        | _ => None
        end
      else None
  end.

Definition regular (uid ctime : Z) : stat_result :=
  mk_stat 33188 uid 0 ctime.   (* 0o100644 *)
Definition symlink (ctime : Z) : stat_result :=
  mk_stat 41471 0 0 ctime.     (* 0o120777 *)
Definition directory (ctime : Z) : stat_result :=
  mk_stat 16877 0 0 ctime.     (* 0o40755 *)

Definition stats : list (string * stat_result) :=
  [ ("/etc/app", directory 50);
    ("/etc/adduser.conf", regular 0 10);
    ("/etc/fuse.conf", regular 0 11);
    ("/etc/issue", regular 0 12);
    ("/etc/site.conf", regular 1000 13);
    ("/etc/vtrgb", symlink 14);
    ("/etc/app/a.conf", regular 0 100);
    ("/etc/app/b.conf", regular 0 100);
    ("/etc/app/c.conf", regular 0 200);
    ("/etc/app/key.bin", regular 0 300);
    ("/etc/app/job", symlink 400);
    ("/etc/app/editor", symlink 500);
    ("/etc/app/current", symlink 600) ].

Definition links : list (string * string) :=
  [ ("/etc/vtrgb", "/etc/alternatives/vtrgb");
    ("/etc/alternatives/vtrgb", "/etc/console-setup/vtrgb.vga");
    ("/etc/app/job", "/lib/init/upstart-job");
    ("/etc/app/editor", "/etc/alternatives/editor");
    ("/etc/app/current", "/etc/app/a.conf") ].

Definition binary_key : string :=
  String (ascii_of_N 255) (String (ascii_of_N 254) "key").

(** What [open(p).read()] returns: a symbolic link reads as the file it
    leads to. *)
Definition contents (blueprintignore : option string)
  : list (string * string) :=
  match blueprintignore with
  | Some rules => [("/root/.blueprintignore", rules)]
  | None => []
  end ++
  [ ("/etc/adduser.conf", text ["DSHELL=/bin/bash"]);
    ("/usr/share/adduser/adduser.conf", text ["DSHELL=/bin/bash"]);
    ("/etc/fuse.conf", text ["user_allow_other"]);
    ("/etc/issue", text ["Ubuntu 10.04 LTS"]);
    ("/etc/site.conf", text ["listen 8080"]);
    ("/etc/vtrgb", text ["vga"]);
    ("/etc/alternatives/vtrgb", text ["vga"]);
    ("/etc/console-setup/vtrgb.vga", text ["vga"]);
    ("/etc/app/a.conf", text ["alpha"]);
    ("/etc/app/b.conf", text ["beta"]);
    ("/etc/app/c.conf", text ["gamma"]);
    ("/etc/app/key.bin", binary_key);
    ("/etc/app/job", text ["#!/bin/sh"]);
    ("/lib/init/upstart-job", text ["#!/bin/sh"]);
    ("/etc/app/editor", text ["nano"]);
    ("/etc/alternatives/editor", text ["nano"]);
    ("/etc/app/current", text ["alpha"]);
    ("/var/lib/dpkg/info/base-files.list", text ["/etc"; "/etc/issue"]);
    ("/var/lib/dpkg/info/base-files.md5sums",
      text ["b779759799b4ec17dd4dab41ad557f49  etc/issue"]);
    ("/var/lib/dpkg/info/console-setup.list",
      text ["/etc/console-setup"; "/etc/console-setup/vtrgb.vga"]);
    ("/var/lib/dpkg/info/console-setup.md5sums",
      text ["e0d31532908b396c565a92e26e319364  etc/console-setup/vtrgb.vga"]);
    ("/var/lib/dpkg/status",
      text ["Package: base-files"; "Conffiles:";
            " /etc/issue b779759799b4ec17dd4dab41ad557f49"]) ].

Definition md5_table : list (string * string) :=
  [ (text ["DSHELL=/bin/bash"], "0a7b6e748574f5005758a4ebc8b0292e");
    (text ["Ubuntu 10.04 LTS"], "b779759799b4ec17dd4dab41ad557f49");
    (text ["user_allow_other"], "27aaec6299ba4ea3128381333b94acd2");
    (text ["listen 8080"], "58c71b2053f3b58aa2118a1eefbc6cbf");
    (text ["alpha"], "9f9f90dbe3e5ee1218c86b8839db1995");
    (text ["beta"], "f0cf2a92516045024a0c99147b28f05b");
    (text ["gamma"], "303febb9068384eca46b5b6516843b35");
    (binary_key, "690c6b7f0ae355714648e5354a993caa");
    (text ["#!/bin/sh"], "3e2b31c72181b87149ff995e7202c0e3");
    (text ["vga"], "e0d31532908b396c565a92e26e319364");
    (text ["nano"], "e0dceb9d9d0cd0c2fbaf6df58bd246ca");
    ("/etc/app/a.conf", "1e622b7424bdb7b170d74eb3bdc40e60");
    ("", "d41d8cd98f00b204e9800998ecf8427e") ].

Definition walk : list (string * list string * list string) :=
  [ ("/etc", ["app"],
      ["adduser.conf"; "fuse.conf"; "issue"; "site.conf"; "vtrgb"]);
    ("/etc/app", [],
      ["a.conf"; "b.conf"; "c.conf"; "key.bin"; "job"; "editor";
       "current"]) ].

Definition machine (walk : list (string * list string * list string))
    (blueprintignore : option string) : World :=
  let files := contents blueprintignore in
  {| os_walk := walk;
     os_lstat := assoc stats;
     read_file := assoc files;
     os_readlink := assoc links;
     os_path_isdir := λ p, String.eqb p "/etc" || String.eqb p "/etc/app";
     os_path_expanduser := λ p, "/root" +:+ Py.drop 1 p;
     glob_glob := λ pat,
       List.filter (wild false pat) ((fst <$> stats) ++ (fst <$> files));
     fnmatch_fnmatch := λ name pat, wild true pat name;
     md5_hexdigest := λ s,
       default "00000000000000000000000000000000" (assoc md5_table s);
     decode_utf8 := utf8;
     pw_name := λ uid, if uid =? 0 then Some "root" else None;
     gr_name := λ gid, if gid =? 0 then Some "root" else None;
     recursion_limit := 1000 |}.

(** The machine without a [~/.blueprintignore]. *)
Definition plain : World := machine walk None.

(** The machine whose user excludes and re-includes files. *)
Definition rules : string :=
  text [ "# local rules"; "!site.conf"; "site.conf"; "*.conf";
         "!a.conf"; "!fuse.conf"; "!adduser.conf"; "!issue" ].
Definition custom : World := machine walk (Some rules).

(** The machine on which [gone.conf] was removed after the walk listed
    it. *)
Definition racing : World :=
  machine [ ("/etc/app", [], ["a.conf"; "gone.conf"; "c.conf"]) ] None.

End Host.

(** ** The statements of the specification

    The notions the specification speaks of, and each statement that the
    code is compared with, in the words of the specification. *)

(** No rule of the list has the empty pattern (a line that is a lone
    exclamation mark gives one, and [match] raises on it). *)
Definition nonempty_patterns (rules : list (string * bool)) : Prop :=
  ∀ pattern negate, (pattern, negate) ∈ rules → pattern ≠ "".

(** The ignore engine as two passes: a path that matches a non-negated
    rule and a negated rule of the cache, wherever the two stand, is not
    ignored. *)
Definition negation_overrides_anywhere (W : World) (filename : string) : Prop :=
  ∀ p q,
    (p, false) ∈ _ignore_cache W →
    match_ W (Py.basename filename) filename p = Ok true →
    (q, true) ∈ _ignore_cache W →
    match_ W (Py.basename filename) filename q = Ok true →
    _ignore W filename false = Ok false.

(** How many of the entries have the change time [t]. *)
Definition sharing (t : Z) (entries : list (string * stat_result)) : Z :=
  Z.of_nat (length (filter (λ e, st_ctime (snd e) = t) entries)).

(** How many entries of the directory, other than the file at index [i],
    have the change time of [s]. *)
Definition others_sharing (files dirs : list (string * stat_result))
    (i : nat) (s : stat_result) : Z :=
  sharing (st_ctime s) (delete i files) + sharing (st_ctime s) dirs.

(** The ctime heuristic as the specification has it: a file is seeded as
    ignored exactly when two or more other entries share its change
    time. *)
Definition seeded_iff_two_others (W : World) (dirpath : string)
    (dirnames filenames : list string) : Prop :=
  ∀ files dirs ctimes i filename s,
    lstat_files W dirpath filenames = Ok files →
    lstat_files W dirpath dirnames = Ok dirs →
    ctimes_dirs W dirpath dirnames (ctimes_files files ∅) = Ok ctimes →
    files !! i = Some (filename, s) →
    (ignore_seed false ctimes s = true ↔ 2 ≤ others_sharing files dirs i s).

(** The provenance resolver as the specification has it: the packages of
    the path, or else those of the target of one symbolic link, and
    nothing beyond that hop. *)
Definition owning_packages_one_hop (W : World)
    (cache : gmap string (list string)) (path : string) : list string :=
  match cache !! path with
  | Some packages => packages
  | None =>
      match os_readlink W path with
      | Some target => default [] (cache !! target)
      | None => []
      end
  end.

Definition resolves_one_hop (W : World) (path : string) : Prop :=
  ∀ cache,
    _dpkg_query_S_cache W = Ok cache →
    _dpkg_query_S W path = Ok (owning_packages_one_hop W cache path).

(** [path] leads to [final] through the symbolic links [hops], none of
    the paths before [final] being in the index. *)
Fixpoint link_chain (W : World) (cache : gmap string (list string))
    (path : string) (hops : list string) (final : string) : Prop :=
  match hops with
  | [] => path = final
  | target :: hops' =>
      cache !! path = None
      ∧ os_readlink W path = Some target
      ∧ link_chain W cache target hops' final
  end.

(** The reference entries of the static table as the specification has
    them: the file is known exactly when its content has the check sum of
    the reference file's content. *)
Definition known_iff_equals_reference (W : World)
    (filename content : string) : Prop :=
  ∀ reference reference_content,
    MD5SUMS !! filename = Some reference →
    Py.first reference = Ok "/"%char →
    read_file W reference = Some reference_content →
    (_is_known_file W filename content = Ok true
     ↔ md5_hexdigest W content = md5_hexdigest W reference_content).

(** What a reference entry of the static table adds to the candidates:
    the check sum of the reference file, or the entry itself when the
    file cannot be read. *)
Definition reference_md5sum (W : World) (reference : string) : string :=
  match read_file W reference with
  | Some reference_content => md5_hexdigest W reference_content
  | None => reference
  end.

(** The record [r] is one that the loop body stores for [filename]. *)
Definition recorded (W : World) (filename : string) (r : FileRecord) : Prop :=
  ∃ ignored ctimes s,
    os_lstat W filename = Some s
    ∧ files_entry W ignored ctimes filename s = Ok (Some r).

(** The content of DevStructure's default [/etc/fuse.conf]. *)
Definition fuse_conf_literal : string := "user_allow_other" +:+ String Py.LF "".

(** The legacy rule as the specification has it: a [/etc/fuse.conf] that
    reads as the literal is never recorded. *)
Definition fuse_conf_always_suppressed (W : World) : Prop :=
  ∀ b,
    read_file W "/etc/fuse.conf" = Some fuse_conf_literal →
    files W ∅ = Ok b →
    b !! "/etc/fuse.conf" = None.

(** The scan as the specification has it: whatever the calls on a single
    file raise, the scan returns. *)
Definition scan_never_aborts (W : World) : Prop :=
  ∃ b, files W ∅ = Ok b.

(** The string has no slash. *)
Definition no_slash (s : string) : bool :=
  all_chars (λ c, negb (Ascii.eqb c "/")) s.

(** The built-in rules, as [_ignore] caches them. *)
Definition builtin_rules : list (string * bool) :=
  (λ pattern, (pattern, false)) <$> IGNORE.

(** The machine of [Host] whose [~/.blueprintignore] has a lone
    exclamation mark on its second line. *)
Definition lone_bang : World :=
  Host.machine Host.walk (Some (Host.text ["*.bak"; "!"; "!a.conf"])).

#[global] Instance result_eq_dec {A} `{EqDecision A} : EqDecision (result A).
Proof. solve_decision. Defined.

(** The machine of [Host] whose user re-includes a file that a built-in
    pattern excludes. *)
Definition keeper : World :=
  Host.machine Host.walk (Some (Host.text ["!keep.dpkg-old"])).

(** A machine that differs from [W] in what [os.readlink] and [glob.glob]
    return. *)
Definition with_links_and_glob (W : World)
    (readlink : string → option string) (glob : string → list string)
  : World :=
  {| os_walk := os_walk W;
     os_lstat := os_lstat W;
     read_file := read_file W;
     os_readlink := readlink;
     os_path_isdir := os_path_isdir W;
     os_path_expanduser := os_path_expanduser W;
     glob_glob := glob;
     fnmatch_fnmatch := fnmatch_fnmatch W;
     md5_hexdigest := md5_hexdigest W;
     decode_utf8 := decode_utf8 W;
     pw_name := pw_name W;
     gr_name := gr_name W;
     recursion_limit := recursion_limit W |}.

(** The machine of [Host] with two links that lead to each other. *)
Definition looping : World :=
  with_links_and_glob Host.plain
    (λ p, if String.eqb p "/etc/ping" then Some "/etc/pong"
          else if String.eqb p "/etc/pong" then Some "/etc/ping"
          else os_readlink Host.plain p)
    (glob_glob Host.plain).

(** The machine of [Host] with one more [.list] file, which cannot be
    read. *)
Definition damaged : World :=
  with_links_and_glob Host.plain (os_readlink Host.plain)
    (λ pat, if String.eqb pat "/var/lib/dpkg/info/*.list"
            then (glob_glob Host.plain pat
                  ++ ["/var/lib/dpkg/info/locked.list"])%list
            else glob_glob Host.plain pat).

(** The packages the index has for a path. *)
Definition owners (cache : gmap string (list string)) (name : string)
  : list string :=
  default [] (cache !! name).

(** The [.list] file [p] of the machine has a line that names [name]. *)
Definition listed_in (W : World) (p name : string) : Prop :=
  ∃ content line,
    read_file W p = Some content
    ∧ line ∈ Py.lines content
    ∧ Py.rstrip line = name.

(** The package a [.list] file belongs to. *)
Definition package_of (p : string) : string :=
  Py.split_head (Py.basename p) ".list".

(** The path is one of the files that the walk lists. *)
Definition walked (W : World) (filename : string) : Prop :=
  ∃ dirpath dirnames filenames name,
    (dirpath, dirnames, filenames) ∈ os_walk W
    ∧ name ∈ filenames
    ∧ filename = Py.path_join dirpath name.

(** The record [r] is one that the loop body stores for [filename] while
    it goes through the directory [dirpath]. *)
Definition recorded_in (W : World) (dirpath : string)
    (dirnames filenames : list string) (filename : string)
    (r : FileRecord) : Prop :=
  ∃ name ignored files ctimes s,
    name ∈ filenames
    ∧ filename = Py.path_join dirpath name
    ∧ _ignore W dirpath false = Ok ignored
    ∧ lstat_files W dirpath filenames = Ok files
    ∧ ctimes_dirs W dirpath dirnames (ctimes_files files ∅) = Ok ctimes
    ∧ (filename, s) ∈ files
    ∧ files_entry W ignored ctimes filename s = Ok (Some r).

(** The machine of [Host] whose user excludes everything named [app]. *)
Definition app_ignored : World :=
  Host.machine Host.walk (Some (Host.text ["app"])).

(** The machine of [Host] with two more entries in [/etc/app]: a
    character device that reads as the empty string (mode 0o20666) and a
    socket (mode 0o140755), which cannot be opened. *)
Definition with_devices : World :=
  {| os_walk := [ ("/etc/app", [], ["c.conf"; "null"; "log.sock"]) ];
     os_lstat := λ p,
       if String.eqb p "/etc/app/null" then Some (mk_stat 8630 0 0 700)
       else if String.eqb p "/etc/app/log.sock"
            then Some (mk_stat 49645 0 0 800)
            else os_lstat Host.plain p;
     read_file := λ p,
       if String.eqb p "/etc/app/null" then Some ""
       else read_file Host.plain p;
     os_readlink := os_readlink Host.plain;
     os_path_isdir := os_path_isdir Host.plain;
     os_path_expanduser := os_path_expanduser Host.plain;
     glob_glob := glob_glob Host.plain;
     fnmatch_fnmatch := fnmatch_fnmatch Host.plain;
     md5_hexdigest := md5_hexdigest Host.plain;
     decode_utf8 := decode_utf8 Host.plain;
     pw_name := pw_name Host.plain;
     gr_name := gr_name Host.plain;
     recursion_limit := recursion_limit Host.plain |}.

(** * Properties *)

(** ** The result monad *)

Lemma bind_Ok {A B} (m : result A) (f : A → result B) (b : B) :
  m ≫= f = Ok b ↔ ∃ a, m = Ok a ∧ f a = Ok b.
Proof.
  destruct m as [a|e]; simpl; split.
  - intros H. exists a. auto.
  - intros (a' & Ha & Hf). congruence.
  - discriminate.
  - intros (a' & Ha & _). discriminate.
Qed.

Lemma bind_Ok_l {A B} (a : A) (f : A → result B) : Ok a ≫= f = f a.
Proof. reflexivity. Qed.

Lemma is_Ok_inv {A} (r : result A) : is_Ok r = true → ∃ a, r = Ok a.
Proof. destruct r as [a|e]; [by exists a|discriminate]. Qed.

Lemma or_raise_Ok {A} (e : exn) (o : option A) (a : A) :
  or_raise e o = Ok a ↔ o = Some a.
Proof. destruct o; simpl; split; congruence. Qed.

(** Unfolds the monadic binds of a hypothesis [H : _ = Ok _]. *)
Ltac inv_bind H :=
  repeat match type of H with
  | (_ ≫= _) = Ok _ =>
      let x := fresh "x" in
      let Hx := fresh "Hx" in
      apply bind_Ok in H; destruct H as (x & Hx & H)
  end.

(** From [Hc : e = Ok cache], the fact [cache !! k = v], by evaluation of
    [e] without the cache being written out. *)
Ltac cache_lookup Hc k v :=
  let Hk := fresh "Hk" in
  match type of Hc with
  | ?e = Ok _ =>
      assert (Hk : (λ m : gmap string (list string), m !! k) <$> e = Ok v)
        by (vm_compute; reflexivity);
      rewrite Hc in Hk; injection Hk as Hk
  end.

(** ** The ignore rule engine *)

Section IgnoreFacts.
Context (W : World).

Lemma last_nonempty (s : string) : s ≠ "" → ∃ c, Py.last s = Ok c.
Proof.
  induction s as [|a s IH]; [congruence|]. intros _.
  destruct s as [|b s]; [by exists a|].
  destruct IH as [c Hc]; [congruence|]. exists c. exact Hc.
Qed.

(** [match] raises on the empty pattern only. *)
Lemma match_total (basename filename pattern : string) :
  pattern ≠ "" → ∃ m, match_ W basename filename pattern = Ok m.
Proof.
  intros Hne. destruct (last_nonempty pattern Hne) as [c Hc].
  unfold match_. rewrite Hc. simpl.
  destruct (Py.find _ _ =? -1); [|eauto].
  destruct (fnmatch_fnmatch W _ _); eauto.
Qed.

Lemma nonempty_patterns_cons (r : string * bool) rules :
  nonempty_patterns (r :: rules) → nonempty_patterns rules.
Proof. intros H p n Hin. apply (H p n). by right. Qed.

(** Started as ignored, the loop only looks at negated rules and stops
    at the first that matches. *)
Lemma ignore_rules_seeded rules basename filename j q :
  nonempty_patterns rules →
  rules !! j = Some (q, true) →
  match_ W basename filename q = Ok true →
  _ignore_rules W rules basename filename true = Ok false.
Proof.
  revert j. induction rules as [|[p n] rules IH]; intros j Hne Hj Hq.
  - discriminate.
  - pose proof (nonempty_patterns_cons _ _ Hne) as Hne'.
    destruct n; simpl.
    + destruct (match_total basename filename p) as [m Hm].
      { apply (Hne p true). by left. }
      rewrite Hm. simpl. destruct m; [done|].
      destruct j as [|j]; simpl in Hj.
      * injection Hj as ->. congruence.
      * by apply (IH j).
    + destruct j as [|j]; simpl in Hj; [discriminate|]. by apply (IH j).
Qed.

(** Started as not ignored, the loop tries the non-negated rules up to
    the first that matches, and the negated rules after it. *)
Lemma ignore_rules_later_negation rules basename filename i j p q :
  nonempty_patterns rules →
  rules !! i = Some (p, false) →
  match_ W basename filename p = Ok true →
  rules !! j = Some (q, true) →
  match_ W basename filename q = Ok true →
  (i < j)%nat →
  _ignore_rules W rules basename filename false = Ok false.
Proof.
  revert i j.
  induction rules as [|[p0 n0] rules IH]; intros i j Hne Hi Hp Hj Hq Hij.
  - discriminate.
  - pose proof (nonempty_patterns_cons _ _ Hne) as Hne'.
    destruct j as [|j]; [lia|]. simpl in Hj.
    destruct n0; simpl.
    + destruct i as [|i]; simpl in Hi; [discriminate|].
      apply (IH i j); auto. lia.
    + destruct (match_total basename filename p0) as [m Hm].
      { apply (Hne p0 false). by left. }
      rewrite Hm. simpl. destruct m.
      * by apply (ignore_rules_seeded rules basename filename j q).
      * destruct i as [|i]; simpl in Hi.
        -- injection Hi as ->. congruence.
        -- apply (IH i j); auto. lia.
Qed.

(** Negated rules placed before the first matching non-negated rule
    are never tried. *)
Lemma ignore_rules_earlier_negation rules rules' basename filename p :
  Forall (λ r, snd r = true) rules →
  match_ W basename filename p = Ok true →
  Forall (λ r, snd r = false) rules' →
  _ignore_rules W (rules ++ (p, false) :: rules') basename filename false
  = Ok true.
Proof.
  intros Hneg Hp Hpos. induction Hneg as [|[q n] rules Hn _ IH]; simpl.
  - rewrite Hp. simpl. clear Hp.
    induction Hpos as [|[q n] rules' Hn _ IH]; simpl; [done|].
    simpl in Hn. subst n. simpl. exact IH.
  - simpl in Hn. subst n. simpl. exact IH.
Qed.

End IgnoreFacts.

(** C1 fails where the negated rule comes first: with [!site.conf] on the
    line before [site.conf], [/etc/site.conf] matches both rules and is
    ignored. *)
Lemma negation_before_exclusion_is_ignored :
  ¬ negation_overrides_anywhere Host.custom "/etc/site.conf".
Proof.
  intros H.
  specialize (H "site.conf" "site.conf").
  assert (Hr : _ignore Host.custom "/etc/site.conf" false = Ok true)
    by (vm_compute; reflexivity).
  rewrite Hr in H.
  assert (Hf : @Ok bool true = Ok false); [|discriminate Hf].
  apply H.
  - apply list_elem_of_In. vm_compute. tauto.
  - vm_compute; reflexivity.
  - apply list_elem_of_In. vm_compute. tauto.
  - vm_compute; reflexivity.
Qed.

(** C1 (amended): [_ignore] makes one pass over the ordered rule list;
    seeded as not ignored, it tries non-negated rules until one matches
    and from there on only negated rules.  So a path that matches a
    non-negated rule and a negated rule placed later in the list is not
    ignored. *)
Theorem ignore_negation_after_exclusion (W : World) (filename : string)
    (i j : nat) (p q : string) :
  nonempty_patterns (_ignore_cache W) →
  _ignore_cache W !! i = Some (p, false) →
  match_ W (Py.basename filename) filename p = Ok true →
  _ignore_cache W !! j = Some (q, true) →
  match_ W (Py.basename filename) filename q = Ok true →
  (i < j)%nat →
  _ignore W filename false = Ok false.
Proof.
  intros. unfold _ignore.
  by apply (ignore_rules_later_negation W _ _ _ i j p q).
Qed.

Lemma nonempty_patterns_check (rules : list (string * bool)) :
  forallb (λ r, negb (String.eqb (fst r) "")) rules = true →
  nonempty_patterns rules.
Proof.
  intros H p n Hin ->. rewrite forallb_forall in H.
  apply list_elem_of_In, H in Hin. discriminate.
Qed.

Lemma ignore_negation_after_exclusion_witness :
  _ignore Host.custom "/etc/fuse.conf" false = Ok false.
Proof.
  apply (ignore_negation_after_exclusion Host.custom "/etc/fuse.conf"
           42 44 "*.conf" "fuse.conf").
  - apply nonempty_patterns_check. vm_compute. reflexivity.
  - vm_compute. reflexivity.
  - vm_compute. reflexivity.
  - vm_compute. reflexivity.
  - vm_compute. reflexivity.
  - lia.
Defined.

(** ** The ctime heuristic *)

Section CtimeFacts.
Context (W : World).

Lemma ctimes_get_incr (ctimes : gmap Z Z) (t t' : Z) :
  ctimes_get (ctimes_incr ctimes t) t'
  = ctimes_get ctimes t' + (if decide (t = t') then 1 else 0).
Proof.
  unfold ctimes_get, ctimes_incr. case_decide as Ht.
  - subst t'. by rewrite lookup_insert_eq.
  - rewrite lookup_insert_ne by done. lia.
Qed.

Lemma sharing_cons (t : Z) (e : string * stat_result) entries :
  sharing t (e :: entries)
  = (if decide (st_ctime (snd e) = t) then 1 else 0) + sharing t entries.
Proof.
  unfold sharing. rewrite filter_cons.
  case_decide; simpl; lia.
Qed.

Lemma sharing_nonneg (t : Z) entries : 0 ≤ sharing t entries.
Proof. unfold sharing. lia. Qed.

(** After the first loop, [ctimes[t]] has grown by the number of files
    whose change time is [t]. *)
Lemma ctimes_files_get files (ctimes : gmap Z Z) (t : Z) :
  ctimes_get (ctimes_files files ctimes) t
  = ctimes_get ctimes t + sharing t files.
Proof.
  revert ctimes. induction files as [|[p s] files IH]; intros ctimes; simpl.
  - unfold sharing. simpl. lia.
  - rewrite IH, ctimes_get_incr, sharing_cons. simpl. lia.
Qed.

(** The second loop does for the subdirectories what the first does for
    the files. *)
Lemma ctimes_dirs_files dirpath dirnames dirs (ctimes : gmap Z Z) :
  lstat_files W dirpath dirnames = Ok dirs →
  ctimes_dirs W dirpath dirnames ctimes = Ok (ctimes_files dirs ctimes).
Proof.
  revert dirs ctimes.
  induction dirnames as [|d dirnames IH]; intros dirs ctimes H; simpl in *.
  - by injection H as <-.
  - inv_bind H. injection H as <-. rewrite Hx. simpl. by apply IH.
Qed.

Lemma sharing_delete files i filename s :
  files !! i = Some (filename, s) →
  sharing (st_ctime s) files = 1 + sharing (st_ctime s) (delete i files).
Proof.
  revert i. induction files as [|e files IH]; intros i Hi; [done|].
  destruct i as [|i]; simpl in Hi.
  - injection Hi as ->. simpl. rewrite sharing_cons. simpl.
    by rewrite decide_True.
  - simpl. rewrite !sharing_cons, (IH i Hi). lia.
Qed.

(** What [1 < ctimes[s.st_ctime]] tests. *)
Lemma ignore_seed_others dirpath dirnames filenames files dirs i filename s :
  lstat_files W dirpath filenames = Ok files →
  lstat_files W dirpath dirnames = Ok dirs →
  files !! i = Some (filename, s) →
  ∃ ctimes,
    ctimes_dirs W dirpath dirnames (ctimes_files files ∅) = Ok ctimes
    ∧ ctimes_get ctimes (st_ctime s) = 1 + others_sharing files dirs i s.
Proof.
  intros Hf Hd Hi. exists (ctimes_files dirs (ctimes_files files ∅)).
  split; [by apply ctimes_dirs_files|].
  rewrite !ctimes_files_get. unfold others_sharing.
  rewrite (sharing_delete files i filename s Hi).
  unfold ctimes_get. rewrite lookup_empty. simpl. lia.
Qed.

End CtimeFacts.

(** C2 fails on a change time that two entries share: [a.conf] and
    [b.conf] are the only entries of [/etc/app] with change time 100, and
    [a.conf] is seeded as ignored. *)
Lemma ctime_shared_with_one_other_is_seeded :
  ¬ seeded_iff_two_others Host.plain "/etc/app" []
      ["a.conf"; "b.conf"; "c.conf"; "key.bin"; "job"; "editor"; "current"].
Proof.
  intros H.
  destruct (lstat_files Host.plain "/etc/app"
              ["a.conf"; "b.conf"; "c.conf"; "key.bin"; "job"; "editor";
               "current"]) as [files|] eqn:Hf; [|vm_compute in Hf; discriminate].
  pose proof Hf as Hfiles. vm_compute in Hfiles. injection Hfiles as <-.
  destruct (H _ [] _ 0%nat "/etc/app/a.conf" (Host.regular 0 100)
              Hf eq_refl eq_refl eq_refl) as [Hseed _].
  specialize (Hseed eq_refl). vm_compute in Hseed. by apply Hseed.
Qed.

(** C2 (amended): the ctime heuristic seeds a file as ignored if and only
    if its change time is that of one or more other entries, files or
    subdirectories, of the same directory; a file whose change time is
    unique in its directory is not seeded. *)
Theorem ctime_heuristic_one_other (W : World) (dirpath : string)
    (dirnames filenames : list string) files dirs i filename s :
  lstat_files W dirpath filenames = Ok files →
  lstat_files W dirpath dirnames = Ok dirs →
  files !! i = Some (filename, s) →
  ∃ ctimes,
    ctimes_dirs W dirpath dirnames (ctimes_files files ∅) = Ok ctimes
    ∧ (ignore_seed false ctimes s = true ↔ 1 ≤ others_sharing files dirs i s)
    ∧ (others_sharing files dirs i s = 0 → ignore_seed false ctimes s = false).
Proof.
  intros Hf Hd Hi.
  destruct (ignore_seed_others W _ _ _ _ _ _ _ _ Hf Hd Hi) as (ctimes & Hc & Hg).
  exists ctimes. split; [done|].
  unfold ignore_seed. simpl. rewrite Hg. split.
  - rewrite Z.ltb_lt. lia.
  - intros H0. rewrite H0. reflexivity.
Qed.

Lemma ctime_heuristic_one_other_witness :
  ∃ ctimes,
    ctimes_dirs Host.plain "/etc" ["app"]
      (ctimes_files [("/etc/issue", Host.regular 0 12);
                     ("/etc/site.conf", Host.regular 1000 13)] ∅) = Ok ctimes
    ∧ (ignore_seed false ctimes (Host.regular 1000 13) = true
       ↔ 1 ≤ others_sharing [("/etc/issue", Host.regular 0 12);
                             ("/etc/site.conf", Host.regular 1000 13)]
               [("/etc/app", Host.directory 50)] 1 (Host.regular 1000 13))
    ∧ (others_sharing [("/etc/issue", Host.regular 0 12);
                       ("/etc/site.conf", Host.regular 1000 13)]
         [("/etc/app", Host.directory 50)] 1 (Host.regular 1000 13) = 0
       → ignore_seed false ctimes (Host.regular 1000 13) = false).
Proof.
  apply (ctime_heuristic_one_other Host.plain "/etc" ["app"]
           ["issue"; "site.conf"] _ _ 1%nat "/etc/site.conf");
    reflexivity.
Defined.

(** ** The package provenance resolver *)

Section DpkgFacts.
Context (W : World) (cache : gmap string (list string)).

Lemma dpkg_query_S_in_hit depth filename packages :
  cache !! filename = Some packages →
  _dpkg_query_S_in W cache (S depth) filename = Ok packages.
Proof. intros H. simpl. by rewrite H. Qed.

Lemma dpkg_query_S_in_unreadable depth filename :
  cache !! filename = None →
  os_readlink W filename = None →
  _dpkg_query_S_in W cache (S depth) filename = Ok [].
Proof. intros Hc Hl. simpl. by rewrite Hc, Hl. Qed.

(** The look-up itself never raises [OSError]: the handler around the
    nested call has nothing to catch. *)
Lemma dpkg_query_S_in_no_OSError depth filename :
  _dpkg_query_S_in W cache depth filename ≠ Raise OSError.
Proof.
  revert filename. induction depth as [|depth IH]; intros filename; simpl.
  - discriminate.
  - destruct (cache !! filename); [discriminate|].
    destruct (os_readlink W filename) as [target|]; [|discriminate].
    specialize (IH target).
    destruct (_dpkg_query_S_in W cache depth target) as [ps|[]];
      congruence.
Qed.

(** A path that is not in the index and is a readable link is looked up
    again as its target, by a nested call of the same function. *)
Lemma dpkg_query_S_in_link depth filename target :
  cache !! filename = None →
  os_readlink W filename = Some target →
  _dpkg_query_S_in W cache (S depth) filename
  = _dpkg_query_S_in W cache depth target.
Proof.
  intros Hc Hl. simpl. rewrite Hc, Hl.
  pose proof (dpkg_query_S_in_no_OSError depth target) as Hne.
  destruct (_dpkg_query_S_in W cache depth target) as [ps|[]]; congruence.
Qed.

Lemma dpkg_query_S_in_chain depth path hops final :
  link_chain W cache path hops final →
  (length hops < depth)%nat →
  _dpkg_query_S_in W cache depth path
  = _dpkg_query_S_in W cache (depth - length hops) final.
Proof.
  revert depth path.
  induction hops as [|target hops IH]; intros depth path Hchain Hlen;
    simpl in *.
  - subst path. f_equal. lia.
  - destruct Hchain as (Hc & Hl & Hchain).
    destruct depth as [|depth]; [lia|].
    rewrite (dpkg_query_S_in_link _ _ _ Hc Hl).
    rewrite (IH depth target Hchain) by lia. reflexivity.
Qed.

End DpkgFacts.

(** C4 fails on a chain of two links: [/etc/vtrgb] leads to
    [/etc/alternatives/vtrgb], which leads to a file of [console-setup];
    neither link is in the index, and the look-up of [/etc/vtrgb] returns
    [console-setup], found at the second hop. *)
Lemma two_hops_are_followed : ¬ resolves_one_hop Host.plain "/etc/vtrgb".
Proof.
  intros H.
  destruct (is_Ok_inv (_dpkg_query_S_cache Host.plain)) as [cache Hc];
    [vm_compute; reflexivity|].
  specialize (H cache Hc).
  assert (Hq : _dpkg_query_S Host.plain "/etc/vtrgb" = Ok ["console-setup"])
    by (vm_compute; reflexivity).
  cache_lookup Hc "/etc/vtrgb" (@None (list string)).
  cache_lookup Hc "/etc/alternatives/vtrgb" (@None (list string)).
  rewrite Hq in H. unfold owning_packages_one_hop in H.
  rewrite Hk in H.
  change (os_readlink Host.plain "/etc/vtrgb")
    with (Some "/etc/alternatives/vtrgb") in H.
  cbv beta iota in H. rewrite Hk0 in H. discriminate H.
Qed.

(** C4 (amended): for a path that is not in the package-file index,
    [_dpkg_query_S] reads the symbolic link and looks its target up by a
    nested call of itself, so that it follows a chain of links, of any
    length the recursion limit allows, up to the first path that is in
    the index, whose packages it returns; where it meets a path that is
    neither in the index nor a readable link it returns the empty
    list. *)
Theorem dpkg_query_S_follows_links (W : World)
    (cache : gmap string (list string)) (path : string)
    (hops : list string) (final : string) :
  _dpkg_query_S_cache W = Ok cache →
  link_chain W cache path hops final →
  (length hops < recursion_limit W)%nat →
  (∀ packages, cache !! final = Some packages →
     _dpkg_query_S W path = Ok packages)
  ∧ (cache !! final = None → os_readlink W final = None →
     _dpkg_query_S W path = Ok []).
Proof.
  intros Hc Hchain Hlen. unfold _dpkg_query_S. rewrite Hc. simpl.
  rewrite (dpkg_query_S_in_chain W cache _ _ _ _ Hchain Hlen).
  destruct (recursion_limit W - length hops)%nat as [|depth] eqn:Hd; [lia|].
  split.
  - intros packages Hf. by apply dpkg_query_S_in_hit.
  - intros Hf Hl. by apply dpkg_query_S_in_unreadable.
Qed.

Lemma dpkg_query_S_follows_links_witness :
  _dpkg_query_S Host.plain "/etc/vtrgb" = Ok ["console-setup"]
  ∧ _dpkg_query_S Host.plain "/etc/app/editor" = Ok [].
Proof.
  destruct (is_Ok_inv (_dpkg_query_S_cache Host.plain)) as [cache Hc];
    [vm_compute; reflexivity|].
  cache_lookup Hc "/etc/vtrgb" (@None (list string)).
  cache_lookup Hc "/etc/alternatives/vtrgb" (@None (list string)).
  cache_lookup Hc "/etc/console-setup/vtrgb.vga" (Some ["console-setup"]).
  cache_lookup Hc "/etc/app/editor" (@None (list string)).
  cache_lookup Hc "/etc/alternatives/editor" (@None (list string)).
  split.
  - apply (proj1 (dpkg_query_S_follows_links Host.plain cache "/etc/vtrgb"
                    ["/etc/alternatives/vtrgb"; "/etc/console-setup/vtrgb.vga"]
                    "/etc/console-setup/vtrgb.vga" Hc
                    (conj Hk (conj eq_refl (conj Hk0 (conj eq_refl eq_refl))))
                    ltac:(vm_compute; lia))).
    exact Hk1.
  - apply (proj2 (dpkg_query_S_follows_links Host.plain cache "/etc/app/editor"
                    ["/etc/alternatives/editor"]
                    "/etc/alternatives/editor" Hc
                    (conj Hk2 (conj eq_refl eq_refl))
                    ltac:(vm_compute; lia))).
    + exact Hk3.
    + reflexivity.
Defined.

(** ** The content authenticity check *)

Section KnownFacts.
Context (W : World).

Lemma known_md5sums_absent digest filename (md5sums : list (option string)) :
  Some digest ∉ md5sums →
  known_md5sums W digest filename md5sums = Ok false.
Proof.
  induction md5sums as [|m md5sums IH]; intros Hin; simpl; [done|].
  rewrite not_elem_of_cons in Hin. destruct Hin as [Hne Hin].
  rewrite decide_False by done. by apply IH.
Qed.

(** The loop calls [_ignore] once, for the one element of the set that
    equals the digest, and returns what it returns. *)
Lemma known_md5sums_present digest filename (md5sums : list (option string)) :
  NoDup md5sums →
  Some digest ∈ md5sums →
  known_md5sums W digest filename md5sums = _ignore W filename true.
Proof.
  induction md5sums as [|m md5sums IH]; intros Hnd Hin; simpl.
  - by apply elem_of_nil in Hin.
  - apply NoDup_cons in Hnd as [Hm Hnd]. case_decide as Heq.
    + subst m.
      destruct (_ignore W filename true) as [[]|e]; simpl; [done| |done].
      by apply known_md5sums_absent.
    + apply elem_of_cons in Hin as [Hin|Hin]; [done|]. by apply IH.
Qed.

Lemma no_base_files (packages : list string) :
  "base-files" ∉ packages →
  existsb (String.eqb "base-files") packages = false.
Proof.
  intros Hin. apply not_true_is_false. intros H.
  apply existsb_exists in H as (p & Hp & Heq).
  apply String.eqb_eq in Heq. subst p. by apply Hin, list_elem_of_In.
Qed.

(** [_is_known_file] on a file that [base-files] does not own. *)
Lemma is_known_file_checksums (filename content : string)
    (packages : list string) (md5sums : gset (option string)) :
  _dpkg_query_S W filename = Ok packages →
  "base-files" ∉ packages →
  _get_md5sums W filename = Ok md5sums →
  _is_known_file W filename content
  = if decide (Some (md5_hexdigest W content) ∈ md5sums)
    then _ignore W filename true else Ok false.
Proof.
  intros Hq Hb Hm. unfold _is_known_file. rewrite Hq, bind_Ok_l.
  rewrite (no_base_files _ Hb), Hm, bind_Ok_l. case_decide as Hin.
  - apply known_md5sums_present; [apply NoDup_elements|].
    by apply elem_of_elements.
  - apply known_md5sums_absent. by rewrite elem_of_elements.
Qed.

(** The candidates of a path that has a reference entry in the table. *)
Lemma get_md5sums_reference (filename reference : string)
    (packages : list string) :
  MD5SUMS !! filename = Some reference →
  Py.first reference = Ok "/"%char →
  _dpkg_query_S W filename = Ok packages →
  ∃ md5sums : gset (option string),
    _get_md5sums W filename = Ok md5sums
    ∧ Some (reference_md5sum W reference) ∈ md5sums
    ∧ (packages = [] → md5sums = {[ Some (reference_md5sum W reference) ]}).
Proof.
  intros Ht Hf Hq. unfold _get_md5sums, _get_md5sums_list.
  rewrite Hq, bind_Ok_l, Ht.
  assert (He : md5sums_entry W reference = Ok (reference_md5sum W reference)).
  { unfold md5sums_entry, reference_md5sum. rewrite Hf. simpl.
    by destruct (read_file W reference). }
  rewrite He. simpl. eexists. split; [reflexivity|]. split.
  - rewrite elem_of_list_to_set, elem_of_app, list_elem_of_singleton. by right.
  - intros ->. simpl. by rewrite union_empty_r_L.
Qed.

End KnownFacts.

(** C3: in [_is_known_file], past the test for [base-files] (none of the
    owning packages is [base-files], so the check sums are looked at),
    when the check sum of the current content is among the candidate
    check sums, the file is known if and only if [_ignore], started as
    ignored, still returns ignored; if a negated rule of the user matches
    the path, the file is not known despite the matching check sum. *)
Theorem known_file_recheck (W : World) (filename content : string)
    (packages : list string) (md5sums : gset (option string)) :
  _dpkg_query_S W filename = Ok packages →
  "base-files" ∉ packages →
  _get_md5sums W filename = Ok md5sums →
  Some (md5_hexdigest W content) ∈ md5sums →
  (_is_known_file W filename content = Ok true
   ↔ _ignore W filename true = Ok true)
  ∧ (∀ j q,
       nonempty_patterns (_ignore_cache W) →
       _ignore_cache W !! j = Some (q, true) →
       match_ W (Py.basename filename) filename q = Ok true →
       _is_known_file W filename content = Ok false).
Proof.
  intros Hq Hb Hm Hin.
  rewrite (is_known_file_checksums W _ content _ _ Hq Hb Hm).
  rewrite decide_True by done. split; [done|].
  intros j q Hne Hj Hmatch. unfold _ignore.
  by apply (ignore_rules_seeded W _ _ _ j q).
Qed.

Lemma known_file_recheck_witness :
  (_is_known_file Host.custom "/etc/adduser.conf"
     (Host.text ["DSHELL=/bin/bash"]) = Ok true
   ↔ _ignore Host.custom "/etc/adduser.conf" true = Ok true)
  ∧ _is_known_file Host.custom "/etc/adduser.conf"
      (Host.text ["DSHELL=/bin/bash"]) = Ok false.
Proof.
  assert (Hq : _dpkg_query_S Host.custom "/etc/adduser.conf" = Ok [])
    by (vm_compute; reflexivity).
  destruct (is_Ok_inv (_get_md5sums Host.custom "/etc/adduser.conf"))
    as [md5sums Hm]; [vm_compute; reflexivity|].
  assert (Hin : Some (md5_hexdigest Host.custom (Host.text ["DSHELL=/bin/bash"]))
                ∈ md5sums).
  { apply elem_of_elements, list_elem_of_In.
    assert (He : elements <$> _get_md5sums Host.custom "/etc/adduser.conf"
                 = Ok [Some "0a7b6e748574f5005758a4ebc8b0292e"])
      by (vm_compute; reflexivity).
    rewrite Hm in He. injection He as ->. left. vm_compute. reflexivity. }
  destruct (known_file_recheck Host.custom "/etc/adduser.conf"
              (Host.text ["DSHELL=/bin/bash"]) [] md5sums Hq
              ltac:(apply not_elem_of_nil) Hm Hin)
    as [Hiff Hneg].
  split; [exact Hiff|].
  apply (Hneg 45%nat "adduser.conf").
  - apply nonempty_patterns_check. vm_compute. reflexivity.
  - vm_compute. reflexivity.
  - vm_compute. reflexivity.
Defined.

(** C7 fails where the user re-includes the file: [/etc/adduser.conf] has
    the content of its reference file, no package owns it, and with the
    rule [!adduser.conf] it is not known. *)
Lemma reference_match_not_known_with_negation :
  ¬ known_iff_equals_reference Host.custom "/etc/adduser.conf"
      (Host.text ["DSHELL=/bin/bash"]).
Proof.
  intros H.
  specialize (H "/usr/share/adduser/adduser.conf"
                (Host.text ["DSHELL=/bin/bash"])).
  destruct H as [_ H]; [vm_compute; reflexivity|reflexivity|reflexivity|].
  specialize (H eq_refl).
  assert (Hk : _is_known_file Host.custom "/etc/adduser.conf"
                 (Host.text ["DSHELL=/bin/bash"]) = Ok false)
    by (vm_compute; reflexivity).
  rewrite Hk in H. discriminate H.
Qed.

(** C7 (amended): for a path whose entry in the static table is a
    reference path (a value that begins with a slash), the check sum of
    the reference file's current content is one of the candidate check
    sums; when the reference file cannot be read nothing is raised and
    the entry itself is the candidate.  If moreover no package owns the
    path, the file is known if and only if the check sum of its content
    is that candidate and [_ignore], started as ignored, still returns
    ignored. *)
Theorem known_by_reference (W : World) (filename reference content : string)
    (packages : list string) :
  MD5SUMS !! filename = Some reference →
  Py.first reference = Ok "/"%char →
  _dpkg_query_S W filename = Ok packages →
  (∃ md5sums : gset (option string),
     _get_md5sums W filename = Ok md5sums
     ∧ Some (reference_md5sum W reference) ∈ md5sums)
  ∧ (∀ reference_content, read_file W reference = Some reference_content →
       reference_md5sum W reference = md5_hexdigest W reference_content)
  ∧ (read_file W reference = None → reference_md5sum W reference = reference)
  ∧ (packages = [] →
       (_is_known_file W filename content = Ok true
        ↔ md5_hexdigest W content = reference_md5sum W reference
          ∧ _ignore W filename true = Ok true)).
Proof.
  intros Ht Hf Hq.
  destruct (get_md5sums_reference W _ _ _ Ht Hf Hq) as (md5sums & Hm & Hin & Hone).
  split; [exists md5sums; split; assumption|].
  split; [intros rc Hr; unfold reference_md5sum; rewrite Hr; reflexivity|].
  split; [intros Hr; unfold reference_md5sum; rewrite Hr; reflexivity|].
  intros ->. specialize (Hone eq_refl). subst md5sums.
  rewrite (is_known_file_checksums W _ content [] _ Hq
             ltac:(apply not_elem_of_nil) Hm).
  case_decide as Hd.
  - apply elem_of_singleton in Hd. injection Hd as Hd. tauto.
  - split; [discriminate|]. intros [Heq _]. destruct Hd.
    apply elem_of_singleton. by rewrite Heq.
Qed.

Lemma known_by_reference_witness :
  _is_known_file Host.plain "/etc/adduser.conf"
    (Host.text ["DSHELL=/bin/bash"]) = Ok true
  ↔ md5_hexdigest Host.plain (Host.text ["DSHELL=/bin/bash"])
    = reference_md5sum Host.plain "/usr/share/adduser/adduser.conf"
    ∧ _ignore Host.plain "/etc/adduser.conf" true = Ok true.
Proof.
  apply (known_by_reference Host.plain "/etc/adduser.conf"
           "/usr/share/adduser/adduser.conf" (Host.text ["DSHELL=/bin/bash"])
           []).
  - vm_compute. reflexivity.
  - reflexivity.
  - vm_compute. reflexivity.
  - reflexivity.
Defined.

(** ** Base64 *)

Module Base64Facts.
Import Base64.

(** Linear arithmetic with division and remainder by constants. *)
Ltac div_lia := zify; Z.to_euclidean_division_equations; lia.

Lemma below_64 (P : N → bool) :
  forallb (λ i, P (N.of_nat i)) (seq 0 64) = true →
  ∀ n, (n < 64)%N → P n = true.
Proof.
  intros H n Hn. rewrite forallb_forall in H.
  rewrite <- (N2Nat.id n). apply H, in_seq. lia.
Qed.

Lemma value_char (n : N) : (n < 64)%N → value (char n) = Some n.
Proof.
  intros Hn.
  apply (below_64 (λ n, bool_decide (value (char n) = Some n))) in Hn.
  - by apply bool_decide_eq_true in Hn.
  - vm_compute. reflexivity.
Qed.

Lemma char_not_pad (n : N) : (n < 64)%N → Ascii.eqb (char n) pad = false.
Proof.
  intros Hn.
  apply (below_64 (λ n, negb (Ascii.eqb (char n) pad))) in Hn.
  - by apply negb_true_iff in Hn.
  - vm_compute. reflexivity.
Qed.

Lemma byte_of_ascii (a : ascii) (n : N) : n = N_of_ascii a → byte n = a.
Proof. intros ->. apply ascii_N_embedding. Qed.

Lemma string_ind3 (P : string → Prop) :
  P "" →
  (∀ a, P (String a "")) →
  (∀ a b, P (String a (String b ""))) →
  (∀ a b c s, P s → P (String a (String b (String c s)))) →
  ∀ s, P s.
Proof.
  intros H0 H1 H2 H3 s.
  enough (P s ∧ (∀ a, P (String a s)) ∧ (∀ a b, P (String a (String b s))))
    by tauto.
  induction s as [|c s (IH0 & IH1 & IH2)]; [by auto|].
  split; [apply IH1|]. split; [intros a; apply IH2|]. intros a b. by apply H3.
Qed.

(** Decoding what [b64encode] produced gives the bytes back. *)
Lemma b64decode_b64encode (s : string) : b64decode (b64encode s) = Some s.
Proof.
  induction s as [|a|a b|a b c s IH] using string_ind3.
  - reflexivity.
  - pose proof (N_ascii_bounded a) as Ha.
    cbn [b64encode b64decode].
    rewrite !value_char by div_lia. cbn [mbind option_bind].
    rewrite !Ascii.eqb_refl.
    replace (N_of_ascii a mod 4 * 16 mod 16 =? 0)%N with true
      by (symmetry; apply N.eqb_eq; div_lia).
    do 2 f_equal. apply byte_of_ascii. div_lia.
  - pose proof (N_ascii_bounded a) as Ha. pose proof (N_ascii_bounded b) as Hb.
    cbn [b64encode b64decode].
    rewrite !value_char by div_lia. cbn [mbind option_bind].
    rewrite Ascii.eqb_refl, char_not_pad by div_lia.
    replace (N_of_ascii b mod 16 * 4 mod 4 =? 0)%N with true
      by (symmetry; apply N.eqb_eq; div_lia).
    f_equal. f_equal; [|f_equal]; apply byte_of_ascii; div_lia.
  - pose proof (N_ascii_bounded a) as Ha. pose proof (N_ascii_bounded b) as Hb.
    pose proof (N_ascii_bounded c) as Hc.
    cbn [b64encode b64decode]. fold b64encode. fold b64decode.
    rewrite !value_char by div_lia. cbn [mbind option_bind].
    rewrite char_not_pad by div_lia.
    rewrite IH. cbn [mbind option_bind].
    f_equal. f_equal; [|f_equal; [|f_equal]]; apply byte_of_ascii; div_lia.
Qed.
End Base64Facts.

(** ** The walk *)

Section FilesFacts.
Context (W : World).

Lemma lstat_files_lstat dirpath filenames files filename s :
  lstat_files W dirpath filenames = Ok files →
  (filename, s) ∈ files →
  os_lstat W filename = Some s.
Proof.
  revert files. induction filenames as [|f filenames IH]; intros files H Hin;
    simpl in H.
  - injection H as <-. by apply elem_of_nil in Hin.
  - inv_bind H. injection H as <-. apply or_raise_Ok in Hx.
    apply elem_of_cons in Hin as [Heq|Hin].
    + by injection Heq as -> ->.
    + by apply (IH x0).
Qed.

(** What the loop body went through when it stores a record. *)
Lemma files_entry_Some ignored ctimes filename s r :
  files_entry W ignored ctimes filename s = Ok (Some r) →
  ∃ raw c e,
    _ignore W filename (ignore_seed ignored ctimes s) = Ok false
    ∧ read_file W filename = Some raw
    ∧ _is_known_file W filename raw = Ok false
    ∧ fuse_conf_default W filename = Ok false
    ∧ file_content W filename s raw = Ok (Some (c, e))
    ∧ r = file_record W s c e.
Proof.
  unfold files_entry. intros H.
  apply bind_Ok in H as ([] & Hig & H); [discriminate|].
  destruct (read_file W filename) as [raw|]; [|discriminate].
  apply bind_Ok in H as ([] & Hk & H); [discriminate|].
  apply bind_Ok in H as ([] & Hl & H); [discriminate|].
  apply bind_Ok in H as ([[c e]|] & Hc & H); [|discriminate].
  injection H as <-. by exists raw, c, e.
Qed.

Lemma files_loop_lookup ignored ctimes files
    (b b' : gmap string FileRecord) (filename : string) :
  (∀ f s, (f, s) ∈ files → os_lstat W f = Some s) →
  files_loop W ignored ctimes files b = Ok b' →
  b' !! filename = b !! filename
  ∨ ∃ r, b' !! filename = Some r ∧ recorded W filename r.
Proof.
  revert b. induction files as [|[f s] files IH]; intros b Hl H; simpl in H.
  - injection H as <-. by left.
  - apply bind_Ok in H as (r & Hr & H).
    assert (Hl' : ∀ f s, (f, s) ∈ files → os_lstat W f = Some s).
    { intros f' s' Hin. apply Hl. by right. }
    destruct r as [r|]; [|by apply IH].
    destruct (IH _ Hl' H) as [Heq|Hrec]; [|by right].
    destruct (decide (f = filename)) as [->|Hne].
    + right. exists r. rewrite Heq, lookup_insert_eq. split; [done|].
      exists ignored, ctimes, s. split; [|done]. apply Hl. by left.
    + left. by rewrite Heq, lookup_insert_ne.
Qed.

Lemma files_walk_lookup walk (b b' : gmap string FileRecord)
    (filename : string) :
  files_walk W walk b = Ok b' →
  b' !! filename = b !! filename
  ∨ ∃ r, b' !! filename = Some r ∧ recorded W filename r.
Proof.
  revert b. induction walk as [|[[dirpath dirnames] filenames] walk IH];
    intros b H; simpl in H.
  - injection H as <-. by left.
  - apply bind_Ok in H as (b1 & Hd & H).
    destruct (IH _ H) as [Heq|Hrec]; [|by right]. rewrite Heq.
    unfold files_dir in Hd.
    apply bind_Ok in Hd as (ignored & _ & Hd).
    apply bind_Ok in Hd as (files & Hf & Hd).
    apply bind_Ok in Hd as (ctimes & _ & Hd).
    apply (files_loop_lookup ignored ctimes files); [|done].
    intros f s Hin. by apply (lstat_files_lstat dirpath filenames files).
Qed.

(** Every entry of [b.files] the scan leaves for a path is the one it found
    there or a record the loop body stored for that path. *)
Lemma files_lookup (b b' : gmap string FileRecord) (filename : string) :
  files W b = Ok b' →
  b' !! filename = b !! filename
  ∨ ∃ r, b' !! filename = Some r ∧ recorded W filename r.
Proof. apply files_walk_lookup. Qed.

Lemma files_lookup_new (b b' : gmap string FileRecord) filename r :
  files W b = Ok b' →
  b !! filename = None →
  b' !! filename = Some r →
  recorded W filename r.
Proof.
  intros H Hb Hb'. destruct (files_lookup b b' filename H) as [Heq|(r' & Hr & Hrec)].
  - congruence.
  - congruence.
Qed.

Lemma files_lookup_unrecorded (b b' : gmap string FileRecord) filename :
  files W b = Ok b' →
  (∀ r, ¬ recorded W filename r) →
  b' !! filename = b !! filename.
Proof.
  intros H Hno. destruct (files_lookup b b' filename H) as [Heq|(r & _ & Hrec)].
  - done.
  - by destruct (Hno r).
Qed.

Lemma S_ISREG_not_LNK (m : Z) : S_ISREG m = true → S_ISLNK m = false.
Proof. unfold S_ISREG, S_ISLNK. lia. Qed.

Lemma file_content_regular filename s raw :
  S_ISREG (st_mode s) = true →
  file_content W filename s raw
  = match decode_utf8 W raw with
    | Some text => Ok (Some (Unicode text, "plain"))
    | None => Ok (Some (Str (Base64.b64encode raw), "base64"))
    end.
Proof.
  intros Hr. unfold file_content. by rewrite (S_ISREG_not_LNK _ Hr), Hr.
Qed.

Lemma file_content_link filename s raw target :
  S_ISLNK (st_mode s) = true →
  os_readlink W filename = Some target →
  file_content W filename s raw
  = if String.eqb "/lib/init/upstart-job" target then Ok None
    else if Py.startswith target "/etc/alternatives/" then Ok None
    else Ok (Some (Str target, "plain")).
Proof. intros Hl Ht. unfold file_content. by rewrite Hl, Ht. Qed.

(** The legacy condition holds for one path, one content, and only when
    the ignore engine, started as ignored, still ignores the path. *)
Lemma fuse_conf_default_true filename :
  fuse_conf_default W filename = Ok true
  ↔ filename = "/etc/fuse.conf"
    ∧ read_file W filename = Some fuse_conf_literal
    ∧ _ignore W filename true = Ok true.
Proof.
  unfold fuse_conf_default, fuse_conf_literal. split.
  - destruct (String.eqb_spec "/etc/fuse.conf" filename) as [<-|]; [|discriminate].
    destruct (read_file W "/etc/fuse.conf") as [c|]; [|discriminate].
    destruct (String.eqb_spec ("user_allow_other" +:+ String Py.LF "") c)
      as [<-|]; [|discriminate].
    auto.
  - intros (-> & -> & Hig). by rewrite !String.eqb_refl.
Qed.

End FilesFacts.

(** From [Hb : e = Ok b], the fact [b !! k = v], by evaluation of [e]. *)
Ltac files_at Hb k v :=
  let Hk := fresh "Hk" in
  match type of Hb with
  | ?e = Ok _ =>
      assert (Hk : (λ m : gmap string FileRecord, m !! k) <$> e = Ok v)
        by (vm_compute; reflexivity);
      rewrite Hb in Hk; injection Hk as Hk
  end.

(** C5: a regular file that is recorded has encoding [base64] if and only
    if its bytes do not decode as UTF-8; its content is then the base64
    encoding of the bytes, which decodes to the bytes again; otherwise the
    encoding is [plain] and the content is the decoded text. *)
Theorem regular_file_encoding (W : World) (b0 b : gmap string FileRecord)
    (filename : string) (r : FileRecord) (s : stat_result) :
  files W b0 = Ok b →
  b0 !! filename = None →
  b !! filename = Some r →
  os_lstat W filename = Some s →
  S_ISREG (st_mode s) = true →
  ∃ raw,
    read_file W filename = Some raw
    ∧ (encoding r = "base64" ↔ decode_utf8 W raw = None)
    ∧ (decode_utf8 W raw = None →
       ∃ stored, content r = Str stored
                 ∧ stored = Base64.b64encode raw
                 ∧ Base64.b64decode stored = Some raw)
    ∧ (∀ text, decode_utf8 W raw = Some text →
       encoding r = "plain" ∧ content r = Unicode text).
Proof.
  intros Hf Hb0 Hb Hs Hreg.
  destruct (files_lookup_new W _ _ _ _ Hf Hb0 Hb) as (ig & ct & s' & Hs' & He).
  assert (s' = s) as -> by congruence.
  apply files_entry_Some in He as (raw & c & e & _ & Hraw & _ & _ & Hc & ->).
  rewrite (file_content_regular W _ _ _ Hreg) in Hc.
  exists raw. split; [done|].
  destruct (decode_utf8 W raw) as [text|]; injection Hc as <- <-; simpl.
  - split; [split; discriminate|]. split; [discriminate|].
    intros text' Ht. by injection Ht as <-.
  - split; [done|]. split; [|discriminate]. intros _.
    exists (Base64.b64encode raw).
    split; [done|]. split; [done|]. apply Base64Facts.b64decode_b64encode.
Qed.

Lemma regular_file_encoding_witness :
  ∃ raw,
    read_file Host.plain "/etc/app/key.bin" = Some raw
    ∧ ("base64" = "base64" ↔ decode_utf8 Host.plain raw = None)
    ∧ (decode_utf8 Host.plain raw = None →
       ∃ stored, Str "//5rZXk=" = Str stored
                 ∧ stored = Base64.b64encode raw
                 ∧ Base64.b64decode stored = Some raw)
    ∧ (∀ text, decode_utf8 Host.plain raw = Some text →
       "base64" = "plain" ∧ Str "//5rZXk=" = Unicode text).
Proof.
  destruct (is_Ok_inv (files Host.plain ∅)) as [b Hb];
    [vm_compute; reflexivity|].
  files_at Hb "/etc/app/key.bin"
    (Some (mk_file (Str "//5rZXk=") "base64" (Name "root") "100644"
             (Name "root"))).
  exact (regular_file_encoding Host.plain ∅ b "/etc/app/key.bin" _
           (Host.regular 0 300) Hb eq_refl Hk eq_refl eq_refl).
Defined.

(** C6: a symbolic link whose target is [/lib/init/upstart-job] or starts
    with [/etc/alternatives/] is never recorded by the scan; every other
    symbolic link that is recorded has its target as content and the
    encoding [plain]. *)
Theorem symlink_record (W : World) (b0 b : gmap string FileRecord)
    (filename : string) (s : stat_result) (target : string) :
  files W b0 = Ok b →
  os_lstat W filename = Some s →
  S_ISLNK (st_mode s) = true →
  os_readlink W filename = Some target →
  (target = "/lib/init/upstart-job"
   ∨ Py.startswith target "/etc/alternatives/" = true →
   b !! filename = b0 !! filename)
  ∧ (∀ r, b0 !! filename = None → b !! filename = Some r →
     content r = Str target ∧ encoding r = "plain").
Proof.
  intros Hf Hs Hlnk Ht.
  assert (Hrec : ∀ r, recorded W filename r →
            String.eqb "/lib/init/upstart-job" target = false
            ∧ Py.startswith target "/etc/alternatives/" = false
            ∧ content r = Str target ∧ encoding r = "plain").
  { intros r (ig & ct & s' & Hs' & He).
    assert (s' = s) as -> by congruence.
    apply files_entry_Some in He as (raw & c & e & _ & _ & _ & _ & Hc & ->).
    rewrite (file_content_link W _ _ _ _ Hlnk Ht) in Hc.
    destruct (String.eqb _ target); [discriminate|].
    destruct (Py.startswith target _); [discriminate|].
    by injection Hc as <- <-. }
  split.
  - intros Hbad. apply (files_lookup_unrecorded W _ _ _ Hf).
    intros r Hr. destruct (Hrec r Hr) as (Hup & Halt & _).
    destruct Hbad as [->|Hbad]; [|congruence].
    by rewrite String.eqb_refl in Hup.
  - intros r Hb0 Hb.
    destruct (Hrec r (files_lookup_new W _ _ _ _ Hf Hb0 Hb)) as (_ & _ & Hc).
    exact Hc.
Qed.

Lemma symlink_record_witness :
  ∃ b r,
    files Host.plain ∅ = Ok b
    ∧ b !! "/etc/app/job" = None
    ∧ b !! "/etc/app/current" = Some r
    ∧ content r = Str "/etc/app/a.conf" ∧ encoding r = "plain".
Proof.
  destruct (is_Ok_inv (files Host.plain ∅)) as [b Hb];
    [vm_compute; reflexivity|].
  files_at Hb "/etc/app/current"
    (Some (mk_file (Str "/etc/app/a.conf") "plain" (Name "root") "120777"
             (Name "root"))).
  eexists b, _. split; [exact Hb|]. split; [|split; [exact Hk|]].
  - exact (proj1 (symlink_record Host.plain ∅ b "/etc/app/job"
                    (Host.symlink 400) "/lib/init/upstart-job"
                    Hb eq_refl eq_refl eq_refl) (or_introl eq_refl)).
  - exact (proj2 (symlink_record Host.plain ∅ b "/etc/app/current"
                    (Host.symlink 600) "/etc/app/a.conf"
                    Hb eq_refl eq_refl eq_refl) _ eq_refl Hk).
Defined.

(** C8 fails where the user re-includes the file: with the rule
    [!fuse.conf], a [/etc/fuse.conf] that reads as the literal is
    recorded. *)
Lemma fuse_conf_recorded_with_negation :
  ¬ fuse_conf_always_suppressed Host.custom.
Proof.
  intros H.
  destruct (is_Ok_inv (files Host.custom ∅)) as [b Hb];
    [vm_compute; reflexivity|].
  specialize (H b eq_refl Hb).
  assert (Hk : (λ m : gmap string FileRecord,
                  bool_decide (is_Some (m !! "/etc/fuse.conf")))
               <$> files Host.custom ∅ = Ok true) by (vm_compute; reflexivity).
  rewrite Hb in Hk. injection Hk as Hk. rewrite H in Hk.
  apply bool_decide_eq_true in Hk. by destruct Hk.
Qed.

(** C8 (amended): a [/etc/fuse.conf] whose whole content is the literal
    [user_allow_other] and a line feed is not recorded, provided
    [_ignore], started as ignored, still returns ignored for it (no
    negated rule of the user matches it); the legacy condition holds for
    no other path and no other content. *)
Theorem fuse_conf_suppressed (W : World) (b0 b : gmap string FileRecord) :
  read_file W "/etc/fuse.conf" = Some fuse_conf_literal →
  _ignore W "/etc/fuse.conf" true = Ok true →
  files W b0 = Ok b →
  b !! "/etc/fuse.conf" = b0 !! "/etc/fuse.conf"
  ∧ (∀ filename,
       fuse_conf_default W filename = Ok true
       ↔ filename = "/etc/fuse.conf"
         ∧ read_file W filename = Some fuse_conf_literal
         ∧ _ignore W filename true = Ok true).
Proof.
  intros Hr Hig Hf. split; [|apply fuse_conf_default_true].
  apply (files_lookup_unrecorded W _ _ _ Hf).
  intros r (ig & ct & s & _ & He).
  apply files_entry_Some in He as (raw & c & e & _ & _ & _ & Hl & _).
  assert (Ht : fuse_conf_default W "/etc/fuse.conf" = Ok true)
    by (by apply fuse_conf_default_true).
  congruence.
Qed.

Lemma fuse_conf_suppressed_witness :
  ∃ b, files Host.plain ∅ = Ok b ∧ b !! "/etc/fuse.conf" = None.
Proof.
  destruct (is_Ok_inv (files Host.plain ∅)) as [b Hb];
    [vm_compute; reflexivity|].
  exists b. split; [exact Hb|].
  exact (proj1 (fuse_conf_suppressed Host.plain ∅ b eq_refl
                  ltac:(vm_compute; reflexivity) Hb)).
Defined.

(** C9 does not hold of the code.  On a machine where
    [gone.conf] was removed after [os.walk] listed it, [os.lstat] raises
    [OSError] in the list comprehension that stats the files of the
    directory, nothing catches it, and the scan ends with that
    exception. *)
Theorem vanished_file_aborts_scan :
  os_lstat Host.racing "/etc/app/gone.conf" = None
  ∧ files Host.racing ∅ = Raise OSError
  ∧ ¬ scan_never_aborts Host.racing.
Proof.
  assert (H : files Host.racing ∅ = Raise OSError) by (vm_compute; reflexivity).
  split; [reflexivity|]. split; [exact H|].
  intros [b Hb]. rewrite H in Hb. discriminate Hb.
Qed.

(** C10: a symbolic link that is recorded has its target, as [readlink]
    gives it, as content, while what the authenticity check was given and
    found not known is what opening the path returned; a link whose
    opened content is known is not recorded, whatever its target, and
    neither is a link that cannot be opened. *)
Theorem symlink_known_by_opened_content (W : World)
    (b0 b : gmap string FileRecord) (filename : string) (s : stat_result) :
  files W b0 = Ok b →
  os_lstat W filename = Some s →
  S_ISLNK (st_mode s) = true →
  (∀ r, b0 !! filename = None → b !! filename = Some r →
     ∃ target raw,
       os_readlink W filename = Some target
       ∧ content r = Str target
       ∧ read_file W filename = Some raw
       ∧ _is_known_file W filename raw = Ok false)
  ∧ (∀ raw, read_file W filename = Some raw →
       _is_known_file W filename raw = Ok true →
       b !! filename = b0 !! filename)
  ∧ (read_file W filename = None → b !! filename = b0 !! filename).
Proof.
  intros Hf Hs Hlnk. split; [|split].
  - intros r Hb0 Hb.
    destruct (files_lookup_new W _ _ _ _ Hf Hb0 Hb) as (ig & ct & s' & Hs' & He).
    assert (s' = s) as -> by congruence.
    apply files_entry_Some in He as (raw & c & e & _ & Hraw & Hk & _ & Hc & ->).
    destruct (os_readlink W filename) as [target|] eqn:Ht.
    + rewrite (file_content_link W _ _ _ _ Hlnk Ht) in Hc.
      destruct (String.eqb _ target); [discriminate|].
      destruct (Py.startswith target _); [discriminate|].
      injection Hc as <- <-. by exists target, raw.
    + unfold file_content in Hc. rewrite Hlnk, Ht in Hc. discriminate.
  - intros raw Hraw Hk. apply (files_lookup_unrecorded W _ _ _ Hf).
    intros r (ig & ct & s' & _ & He).
    apply files_entry_Some in He as (raw' & c & e & _ & Hraw' & Hk' & _).
    congruence.
  - intros Hraw. apply (files_lookup_unrecorded W _ _ _ Hf).
    intros r (ig & ct & s' & _ & He).
    apply files_entry_Some in He as (raw' & c & e & _ & Hraw' & _).
    congruence.
Qed.

Lemma symlink_known_by_opened_content_witness :
  ∃ b r target raw,
    files Host.plain ∅ = Ok b
    ∧ b !! "/etc/app/current" = Some r
    ∧ os_readlink Host.plain "/etc/app/current" = Some target
    ∧ content r = Str target
    ∧ read_file Host.plain "/etc/app/current" = Some raw
    ∧ _is_known_file Host.plain "/etc/app/current" raw = Ok false.
Proof.
  destruct (is_Ok_inv (files Host.plain ∅)) as [b Hb];
    [vm_compute; reflexivity|].
  files_at Hb "/etc/app/current"
    (Some (mk_file (Str "/etc/app/a.conf") "plain" (Name "root") "120777"
             (Name "root"))).
  destruct (proj1 (symlink_known_by_opened_content Host.plain ∅ b
                     "/etc/app/current" (Host.symlink 600)
                     Hb eq_refl eq_refl) _ eq_refl Hk)
    as (target & raw & Ht & Hc & Hraw & Hn).
  eexists b, _, target, raw.
  split; [exact Hb|]. split; [exact Hk|]. split; [exact Ht|].
  split; [exact Hc|]. split; [exact Hraw|exact Hn].
Defined.

(** * Further properties of the code *)

(** ** [_ignore]: defaults, precedence and the empty pattern *)

Section IgnoreMore.
Context (W : World).

Lemma ignore_rules_unmatched rules basename filename seed :
  (∀ p n, (p, n) ∈ rules → match_ W basename filename p = Ok false) →
  _ignore_rules W rules basename filename seed = Ok seed.
Proof.
  induction rules as [|[p n] rules IH]; intros H; simpl; [done|].
  assert (Hp : match_ W basename filename p = Ok false)
    by (apply (H p n); by left).
  assert (IH' : _ignore_rules W rules basename filename seed = Ok seed).
  { apply IH. intros q m Hin. apply (H q m). by right. }
  destruct (negb (Bool.eqb seed n)); [done|].
  destruct seed; rewrite Hp; simpl; exact IH'.
Qed.

(** Started as ignored, a path stays ignored when no negated rule
    matches it. *)
Lemma ignore_rules_seeded_stays rules basename filename :
  (∀ q, (q, true) ∈ rules → match_ W basename filename q = Ok false) →
  _ignore_rules W rules basename filename true = Ok true.
Proof.
  induction rules as [|[p n] rules IH]; intros H; simpl; [done|].
  assert (IH' : _ignore_rules W rules basename filename true = Ok true).
  { apply IH. intros q Hin. apply H. by right. }
  destruct n; simpl; [|exact IH'].
  rewrite (H p) by (by left). simpl. exact IH'.
Qed.

Lemma ignore_rules_excluded rules basename filename p :
  nonempty_patterns rules →
  (p, false) ∈ rules →
  match_ W basename filename p = Ok true →
  (∀ q, (q, true) ∈ rules → match_ W basename filename q = Ok false) →
  _ignore_rules W rules basename filename false = Ok true.
Proof.
  induction rules as [|[p0 n0] rules IH]; intros Hne Hin Hp Hneg.
  - by apply elem_of_nil in Hin.
  - pose proof (nonempty_patterns_cons _ _ Hne) as Hne'.
    assert (Hneg' : ∀ q, (q, true) ∈ rules →
              match_ W basename filename q = Ok false).
    { intros q Hq. apply Hneg. by right. }
    simpl. destruct n0; simpl.
    + apply IH; auto. apply elem_of_cons in Hin as [Heq|Hin]; [congruence|done].
    + destruct (match_total W basename filename p0) as [m Hm].
      { apply (Hne p0 false). by left. }
      rewrite Hm. simpl. destruct m.
      * by apply ignore_rules_seeded_stays.
      * apply IH; auto.
        apply elem_of_cons in Hin as [Heq|Hin]; [|done].
        injection Heq as ->. congruence.
Qed.

(** Started as ignored, the loop raises [IndexError] at a negated rule
    with the empty pattern if no negated rule before it matches. *)
Lemma ignore_rules_empty_pattern before after basename filename :
  (∀ q, (q, true) ∈ before → match_ W basename filename q = Ok false) →
  _ignore_rules W (before ++ ("", true) :: after) basename filename true
  = Raise IndexError.
Proof.
  induction before as [|[p n] before IH]; intros H; simpl; [done|].
  assert (IH' : _ignore_rules W (before ++ ("", true) :: after)
                  basename filename true = Raise IndexError).
  { apply IH. intros q Hin. apply H. by right. }
  destruct n; simpl; [|exact IH'].
  rewrite (H p) by (by left). simpl. exact IH'.
Qed.

Lemma add_pattern_app cache line :
  ∃ added, add_pattern cache line = (cache ++ added)%list.
Proof.
  unfold add_pattern. destruct (Py.rstrip line) as [|c rest].
  - exists []. by rewrite app_nil_r.
  - destruct (Ascii.eqb c "#"); [exists []; by rewrite app_nil_r|].
    destruct (Ascii.eqb c "!"); eauto.
Qed.

Lemma fold_add_pattern_app ls cache :
  ∃ added, fold_left add_pattern ls cache = (cache ++ added)%list.
Proof.
  revert cache. induction ls as [|l ls IH]; intros cache; simpl.
  - exists []. by rewrite app_nil_r.
  - destruct (add_pattern_app cache l) as [a1 ->].
    destruct (IH (cache ++ a1)%list) as [a2 ->].
    exists (a1 ++ a2)%list. by rewrite app_assoc.
Qed.

(** The cache starts with the built-in rules, in their order, whatever
    the user's file holds; without a readable file it is these rules. *)
Lemma ignore_cache_builtin_first :
  ∃ user, _ignore_cache W = (builtin_rules ++ user)%list
          ∧ (read_file W (os_path_expanduser W "~/.blueprintignore") = None
             → user = []).
Proof.
  unfold _ignore_cache, open_lines.
  destruct (read_file W _) as [c|]; simpl.
  - destruct (fold_add_pattern_app (Py.lines c) builtin_rules) as [user Hu].
    exists user. split; [exact Hu|discriminate].
  - exists []. split; [reflexivity|done].
Qed.

Lemma builtin_rules_not_negated q : (q, true) ∉ builtin_rules.
Proof.
  unfold builtin_rules. intros Hin.
  apply list_elem_of_fmap in Hin as (p & Heq & _). discriminate.
Qed.

End IgnoreMore.

(** X1: a path that no rule of the cache matches keeps the state it was
    given: not ignored by default, ignored when seeded as ignored. *)
Theorem ignore_unmatched_keeps_seed (W : World) (filename : string)
    (seed : bool) :
  (∀ p n, (p, n) ∈ _ignore_cache W →
     match_ W (Py.basename filename) filename p = Ok false) →
  _ignore W filename seed = Ok seed.
Proof. intros H. unfold _ignore. by apply ignore_rules_unmatched. Qed.

Lemma ignore_unmatched_keeps_seed_witness :
  _ignore Host.plain "/etc/app/key.bin" false = Ok false
  ∧ _ignore Host.plain "/etc/app/key.bin" true = Ok true.
Proof.
  assert (H : ∀ p n, (p, n) ∈ _ignore_cache Host.plain →
            match_ Host.plain (Py.basename "/etc/app/key.bin")
              "/etc/app/key.bin" p = Ok false).
  { intros p n Hin. apply list_elem_of_In in Hin.
    assert (Hall : forallb (λ r, bool_decide
                     (match_ Host.plain (Py.basename "/etc/app/key.bin")
                        "/etc/app/key.bin" (fst r) = Ok false))
                     (_ignore_cache Host.plain) = true)
      by (vm_compute; reflexivity).
    rewrite forallb_forall in Hall.
    apply (bool_decide_eq_true_1 _ (Hall _ Hin)). }
  split.
  - exact (ignore_unmatched_keeps_seed Host.plain "/etc/app/key.bin" false H).
  - exact (ignore_unmatched_keeps_seed Host.plain "/etc/app/key.bin" true H).
Defined.

(** X2: a path that a non-negated rule matches and no negated rule
    matches is ignored. *)
Theorem ignore_exclusion_without_negation (W : World) (filename p : string) :
  nonempty_patterns (_ignore_cache W) →
  (p, false) ∈ _ignore_cache W →
  match_ W (Py.basename filename) filename p = Ok true →
  (∀ q, (q, true) ∈ _ignore_cache W →
     match_ W (Py.basename filename) filename q = Ok false) →
  _ignore W filename false = Ok true.
Proof. intros. unfold _ignore. by apply (ignore_rules_excluded W _ _ _ p). Qed.

Lemma rules_check (P : string * bool → bool) (rules : list (string * bool)) :
  forallb P rules = true → ∀ r, r ∈ rules → P r = true.
Proof.
  intros H r Hin. rewrite forallb_forall in H. by apply H, list_elem_of_In.
Qed.

Lemma ignore_exclusion_without_negation_witness :
  _ignore Host.custom "/etc/app/c.conf" false = Ok true.
Proof.
  apply (ignore_exclusion_without_negation Host.custom "/etc/app/c.conf"
           "*.conf").
  - apply nonempty_patterns_check. vm_compute. reflexivity.
  - apply list_elem_of_In. vm_compute. tauto.
  - vm_compute. reflexivity.
  - intros q Hq.
    apply (rules_check
             (λ r, negb (snd r)
                   || bool_decide
                        (match_ Host.custom (Py.basename "/etc/app/c.conf")
                           "/etc/app/c.conf" (fst r) = Ok false))) in Hq.
    + by apply bool_decide_eq_true_1 in Hq.
    + vm_compute. reflexivity.
Defined.

(** X3: a negated rule with the empty pattern, which is what a line of
    [~/.blueprintignore] that holds only an exclamation mark gives, makes
    [_ignore] raise [IndexError] for every path that is seeded as ignored
    and that no earlier negated rule matches. *)
Theorem ignore_empty_negation_raises (W : World) (filename : string)
    (before after : list (string * bool)) :
  _ignore_cache W = (before ++ ("", true) :: after)%list →
  (∀ q, (q, true) ∈ before →
     match_ W (Py.basename filename) filename q = Ok false) →
  _ignore W filename true = Raise IndexError.
Proof.
  intros Hc H. unfold _ignore. rewrite Hc.
  by apply ignore_rules_empty_pattern.
Qed.

Lemma ignore_empty_negation_raises_witness :
  _ignore lone_bang "/etc/app/a.conf" true = Raise IndexError.
Proof.
  apply (ignore_empty_negation_raises lone_bang "/etc/app/a.conf"
           (builtin_rules ++ [("*.bak", false)]) [("a.conf", true)]).
  - vm_compute. reflexivity.
  - intros q Hq. apply elem_of_app in Hq as [Hq|Hq].
    + by apply builtin_rules_not_negated in Hq.
    + apply list_elem_of_singleton in Hq. discriminate Hq.
Defined.

(** X4: the built-in rules come first in the cache, so a negated rule of
    the user overrides any built-in pattern: a path that a built-in
    pattern matches and a negated rule matches is not ignored. *)
Theorem user_negation_overrides_builtin (W : World) (filename p q : string) :
  nonempty_patterns (_ignore_cache W) →
  p ∈ IGNORE →
  match_ W (Py.basename filename) filename p = Ok true →
  (q, true) ∈ _ignore_cache W →
  match_ W (Py.basename filename) filename q = Ok true →
  _ignore W filename false = Ok false.
Proof.
  intros Hne Hp Hmp Hq Hmq.
  destruct (ignore_cache_builtin_first W) as (user & Hc & _).
  assert (Hpb : (p, false) ∈ builtin_rules).
  { unfold builtin_rules. apply list_elem_of_fmap. by exists p. }
  apply list_elem_of_lookup in Hpb as [i Hi].
  rewrite Hc in Hq. apply elem_of_app in Hq as [Hq|Hq].
  { by apply builtin_rules_not_negated in Hq. }
  apply list_elem_of_lookup in Hq as [j Hj].
  unfold _ignore.
  apply (ignore_rules_later_negation W _ _ _ i (length builtin_rules + j) p q);
    auto.
  - rewrite Hc. by apply lookup_app_l_Some.
  - rewrite Hc, lookup_app_r by lia.
    by replace (length builtin_rules + j - length builtin_rules)%nat with j
      by lia.
  - apply lookup_lt_Some in Hi. lia.
Qed.

Lemma user_negation_overrides_builtin_witness :
  _ignore keeper "/etc/keep.dpkg-old" false = Ok false.
Proof.
  apply (user_negation_overrides_builtin keeper "/etc/keep.dpkg-old"
           "*.dpkg-*" "keep.dpkg-old").
  - apply nonempty_patterns_check. vm_compute. reflexivity.
  - apply list_elem_of_In. vm_compute. tauto.
  - vm_compute. reflexivity.
  - apply list_elem_of_In. vm_compute. tauto.
  - vm_compute. reflexivity.
Defined.

(** ** [match]: patterns with and without a slash *)

Section MatchFacts.
Context (W : World).

Lemma index_slash (s : string) :
  String.index 0 "/" s = None ↔ no_slash s = true.
Proof.
  induction s as [|c s IH]; [done|].
  unfold no_slash in *. cbn [String.index all_chars String.prefix].
  destruct (ascii_dec "/" c) as [<-|Hne].
  - simpl. by destruct s.
  - rewrite (proj2 (Ascii.eqb_neq c "/")) by congruence. simpl.
    rewrite <- IH. by destruct (String.index 0 "/" s).
Qed.

Lemma find_no_slash (s : string) : no_slash s = true → Py.find s "/" = -1.
Proof. intros H. unfold Py.find. by rewrite (proj2 (index_slash s) H). Qed.

Lemma find_slash (s : string) : no_slash s = false → Py.find s "/" ≠ -1.
Proof.
  intros H. unfold Py.find.
  destruct (String.index 0 "/" s) eqn:Hi; [lia|].
  apply index_slash in Hi. congruence.
Qed.

Lemma rstrip_slash_no_slash (s : string) :
  no_slash s = true → Py.rstrip_slash s = s.
Proof.
  unfold Py.rstrip_slash, no_slash.
  induction s as [|c s IH]; [done|]. cbn [all_chars Py.rstrip_by].
  intros [Hc Hs]%andb_true_iff. rewrite (IH Hs).
  destruct s; [|done]. apply negb_true_iff in Hc.
  rewrite Ascii.eqb_sym in Hc. unfold Py.slash. by rewrite Hc.
Qed.

Lemma rstrip_slash_trailing (s : string) :
  no_slash s = true → Py.rstrip_slash (s +:+ "/") = s.
Proof.
  unfold Py.rstrip_slash, no_slash.
  induction s as [|c s IH]; [done|].
  change (String c s +:+ "/") with (String c (s +:+ "/")).
  cbn [all_chars Py.rstrip_by].
  intros [Hc Hs]%andb_true_iff. rewrite (IH Hs).
  destruct s; [|done]. apply negb_true_iff in Hc.
  rewrite Ascii.eqb_sym in Hc. unfold Py.slash. by rewrite Hc.
Qed.

Lemma last_trailing (s : string) : Py.last (s +:+ "/") = Ok "/"%char.
Proof.
  induction s as [|c s IH]; [done|].
  change (String c s +:+ "/") with (String c (s +:+ "/")).
  cbn [Py.last]. rewrite IH. by destruct (s +:+ "/").
Qed.

Lemma last_no_slash (s : string) :
  s ≠ "" → no_slash s = true →
  ∃ c, Py.last s = Ok c ∧ Ascii.eqb Py.slash c = false.
Proof.
  unfold no_slash. induction s as [|a s IH]; [done|]. intros _.
  cbn [all_chars]. intros [Ha Hs]%andb_true_iff.
  destruct s as [|b s].
  - exists a. split; [done|]. apply negb_true_iff in Ha.
    by rewrite Ascii.eqb_sym.
  - destruct IH as (c & Hc & Hne); [done|done|]. by exists c.
Qed.

Lemma match_glob_true filename gs :
  match_glob filename gs = true
  ↔ ∃ g, g ∈ gs ∧ (filename = g ∨ Py.startswith filename (g +:+ "/") = true).
Proof.
  induction gs as [|g gs IH]; simpl.
  - split; [discriminate|]. intros (g & Hin & _). by apply elem_of_nil in Hin.
  - destruct (String.eqb_spec filename g) as [->|Hne]; simpl.
    + split; [|done]. intros _. exists g. split; [by left|by left].
    + destruct (Py.startswith filename (g +:+ "/")) eqn:Hs.
      * split; [|done]. intros _. exists g. split; [by left|by right].
      * rewrite IH. split.
        -- intros (g' & Hin & H). exists g'. split; [by right|done].
        -- intros (g' & Hin & H).
           apply elem_of_cons in Hin as [->|Hin]; [|by exists g'].
           destruct H; congruence.
Qed.

End MatchFacts.

(** X5: a pattern without a slash is matched, by [fnmatch], against the
    last component of the path; followed by one slash it matches
    directories only. *)
Theorem match_basename_pattern (W : World) (basename filename p : string) :
  no_slash p = true →
  (p ≠ "" →
   match_ W basename filename p = Ok (fnmatch_fnmatch W basename p))
  ∧ match_ W basename filename (p +:+ "/")
    = Ok (fnmatch_fnmatch W basename p && os_path_isdir W filename).
Proof.
  intros Hp. split.
  - intros Hne. unfold match_.
    destruct (last_no_slash p Hne Hp) as (c & -> & Hc).
    rewrite bind_Ok_l, Hc, (rstrip_slash_no_slash p Hp), (find_no_slash p Hp).
    simpl. by destruct (fnmatch_fnmatch W basename p).
  - unfold match_.
    rewrite last_trailing, bind_Ok_l, (rstrip_slash_trailing p Hp),
      (find_no_slash p Hp).
    simpl. by destruct (fnmatch_fnmatch W basename p).
Qed.

Lemma match_basename_pattern_witness :
  match_ Host.plain "app" "/etc/app" "a*" = Ok true
  ∧ match_ Host.plain "a.conf" "/etc/app/a.conf" "a*/" = Ok false.
Proof.
  destruct (match_basename_pattern Host.plain "app" "/etc/app" "a*" eq_refl)
    as [H1 _].
  destruct (match_basename_pattern Host.plain "a.conf" "/etc/app/a.conf" "a*"
              eq_refl) as [_ H2].
  split; [apply H1; discriminate|exact H2].
Defined.

(** X6: a pattern with a slash inside is expanded by [glob] under [/etc]
    and matches the paths found and everything below them; neither the
    last component of the path nor a trailing slash of the pattern plays
    a part. *)
Theorem match_path_pattern (W : World) (basename filename pattern : string) :
  pattern ≠ "" →
  no_slash (Py.rstrip_slash pattern) = false →
  match_ W basename filename pattern
  = Ok (match_glob filename
          (glob_glob W (Py.path_join "/etc" (Py.rstrip_slash pattern))))
  ∧ (match_ W basename filename pattern = Ok true
     ↔ ∃ g, g ∈ glob_glob W (Py.path_join "/etc" (Py.rstrip_slash pattern))
            ∧ (filename = g ∨ Py.startswith filename (g +:+ "/") = true)).
Proof.
  intros Hne Hs.
  assert (Hm : match_ W basename filename pattern
               = Ok (match_glob filename
                       (glob_glob W (Py.path_join "/etc"
                                       (Py.rstrip_slash pattern))))).
  { unfold match_. destruct (last_nonempty pattern Hne) as [c ->].
    rewrite bind_Ok_l. cbv zeta.
    pose proof (find_slash _ Hs) as Hf.
    by rewrite (proj2 (Z.eqb_neq _ _) Hf). }
  split; [exact Hm|]. rewrite Hm, <- match_glob_true.
  split; [by intros [= ->]|by intros ->].
Qed.

Lemma match_path_pattern_witness :
  match_ Host.plain "a.conf" "/etc/app/a.conf" "/etc/app/" = Ok true.
Proof.
  apply (proj2 (match_path_pattern Host.plain "a.conf" "/etc/app/a.conf"
                  "/etc/app/" ltac:(discriminate) eq_refl)).
  exists "/etc/app". split; [|by right].
  apply list_elem_of_In. vm_compute. tauto.
Defined.

(** ** The package-file index *)

Section IndexFacts.
Context (W : World).

Lemma dpkg_query_S_in_cycle (cache : gmap string (list string))
    (P : string → Prop) depth filename :
  (∀ f, P f → cache !! f = None ∧ ∃ t, os_readlink W f = Some t ∧ P t) →
  P filename →
  _dpkg_query_S_in W cache depth filename = Raise RuntimeError.
Proof.
  intros HP. revert filename.
  induction depth as [|depth IH]; intros filename Hf; [done|].
  destruct (HP filename Hf) as (Hc & t & Ht & HPt).
  rewrite (dpkg_query_S_in_link W cache depth filename t Hc Ht).
  by apply IH.
Qed.

Lemma owners_add_owner package (cache : gmap string (list string))
    line name q :
  q ∈ owners (add_owner package cache line) name
  ↔ q ∈ owners cache name ∨ (q = package ∧ Py.rstrip line = name).
Proof.
  unfold owners, add_owner.
  destruct (decide (Py.rstrip line = name)) as [<-|Hne].
  - destruct (cache !! Py.rstrip line) as [l|] eqn:Hl;
      rewrite lookup_insert_eq; simpl.
    + rewrite elem_of_app, list_elem_of_singleton. tauto.
    + rewrite list_elem_of_singleton, elem_of_nil. tauto.
  - assert (Hk : ∀ v, <[Py.rstrip line := v]> cache !! name = cache !! name)
      by (intros v; by rewrite lookup_insert_ne).
    destruct (cache !! Py.rstrip line); rewrite Hk; tauto.
Qed.

Lemma owners_fold_add_owner package ls (cache : gmap string (list string))
    name q :
  q ∈ owners (fold_left (add_owner package) ls cache) name
  ↔ q ∈ owners cache name
    ∨ (q = package ∧ ∃ line, line ∈ ls ∧ Py.rstrip line = name).
Proof.
  revert cache. induction ls as [|l ls IH]; intros cache; simpl.
  - split; [by left|]. intros [H|(_ & line & Hin & _)]; [done|].
    by apply elem_of_nil in Hin.
  - rewrite IH, owners_add_owner. split.
    + intros [[H|[-> Hl]]|(-> & line & Hin & Hl)].
      * by left.
      * right. split; [done|]. exists l. split; [by left|done].
      * right. split; [done|]. exists line. split; [by right|done].
    + intros [H|(-> & line & Hin & Hl)]; [by left; left|].
      apply elem_of_cons in Hin as [->|Hin].
      * left. by right.
      * right. split; [done|]. by exists line.
Qed.

Lemma owners_dpkg_lists ps (cache cache' : gmap string (list string))
    name q :
  dpkg_lists W ps cache = Ok cache' →
  q ∈ owners cache' name
  ↔ q ∈ owners cache name
    ∨ ∃ p, p ∈ ps ∧ q = package_of p ∧ listed_in W p name.
Proof.
  revert cache. induction ps as [|p ps IH]; intros cache H; simpl in H.
  - injection H as <-. split; [by left|].
    intros [H|(p & Hin & _)]; [done|]. by apply elem_of_nil in Hin.
  - apply bind_Ok in H as (ls & Hls & H).
    unfold open_lines in Hls. apply or_raise_Ok in Hls.
    destruct (read_file W p) as [content|] eqn:Hr; [|discriminate].
    injection Hls as <-.
    rewrite (IH _ H), owners_fold_add_owner. split.
    + intros [[Hq|(-> & line & Hin & Hl)]|(p' & Hin & Hq & Hl)].
      * by left.
      * right. exists p. split; [by left|]. split; [done|].
        by exists content, line.
      * right. exists p'. split; [by right|done].
    + intros [Hq|(p' & Hin & -> & Hl)]; [by left; left|].
      apply elem_of_cons in Hin as [->|Hin].
      * left. right. split; [done|].
        destruct Hl as (content' & line & Hr' & Hin & Hl).
        exists line. split; [congruence|done].
      * right. by exists p'.
Qed.

Lemma dpkg_lists_unreadable ps (cache : gmap string (list string)) p :
  p ∈ ps →
  read_file W p = None →
  dpkg_lists W ps cache = Raise IOError.
Proof.
  revert cache. induction ps as [|p0 ps IH]; intros cache Hin Hr.
  - by apply elem_of_nil in Hin.
  - simpl. unfold open_lines.
    destruct (read_file W p0) as [content|] eqn:Hr0; simpl; [|done].
    apply elem_of_cons in Hin as [->|Hin]; [congruence|]. by apply IH.
Qed.

End IndexFacts.

(** X7: symbolic links that lead to each other, none of them in the
    index, make [_dpkg_query_S] call itself until the interpreter's
    recursion limit: it raises [RuntimeError], which its handler for
    [OSError] does not catch. *)
Theorem dpkg_query_S_link_cycle (W : World)
    (cache : gmap string (list string)) (P : string → Prop)
    (filename : string) :
  _dpkg_query_S_cache W = Ok cache →
  (∀ f, P f → cache !! f = None ∧ ∃ t, os_readlink W f = Some t ∧ P t) →
  P filename →
  _dpkg_query_S W filename = Raise RuntimeError.
Proof.
  intros Hc HP Hf. unfold _dpkg_query_S. rewrite Hc, bind_Ok_l.
  by apply (dpkg_query_S_in_cycle W cache P).
Qed.

Lemma dpkg_query_S_link_cycle_witness :
  _dpkg_query_S looping "/etc/ping" = Raise RuntimeError.
Proof.
  destruct (is_Ok_inv (_dpkg_query_S_cache looping)) as [cache Hc];
    [vm_compute; reflexivity|].
  cache_lookup Hc "/etc/ping" (@None (list string)).
  cache_lookup Hc "/etc/pong" (@None (list string)).
  apply (dpkg_query_S_link_cycle looping cache
           (λ f, f = "/etc/ping" ∨ f = "/etc/pong") "/etc/ping" Hc).
  - intros f [-> | ->].
    + split; [exact Hk|]. exists "/etc/pong". split; [reflexivity|by right].
    + split; [exact Hk0|]. exists "/etc/ping". split; [reflexivity|by left].
  - by left.
Defined.

(** X8: the index maps a path to exactly the packages whose [.list] file
    has a line that, stripped of trailing white space, is the path: a
    package is among the owners of a path if and only if one of the
    globbed [.list] files is the package's and lists the path. *)
Theorem dpkg_index_owners (W : World) (cache : gmap string (list string))
    (name package : string) :
  _dpkg_query_S_cache W = Ok cache →
  package ∈ owners cache name
  ↔ ∃ p, p ∈ glob_glob W "/var/lib/dpkg/info/*.list"
         ∧ package = package_of p
         ∧ listed_in W p name.
Proof.
  intros Hc. unfold _dpkg_query_S_cache in Hc.
  rewrite (owners_dpkg_lists W _ _ _ name package Hc).
  unfold owners at 1. rewrite lookup_empty. simpl.
  rewrite elem_of_nil. tauto.
Qed.

Lemma dpkg_index_owners_witness :
  ∃ cache,
    _dpkg_query_S_cache Host.plain = Ok cache
    ∧ "base-files" ∈ owners cache "/etc/issue".
Proof.
  destruct (is_Ok_inv (_dpkg_query_S_cache Host.plain)) as [cache Hc];
    [vm_compute; reflexivity|].
  exists cache. split; [exact Hc|].
  apply (proj2 (dpkg_index_owners Host.plain cache "/etc/issue" "base-files"
                  Hc)).
  exists "/var/lib/dpkg/info/base-files.list".
  split; [apply list_elem_of_In; vm_compute; tauto|].
  split; [vm_compute; reflexivity|].
  exists (Host.text ["/etc"; "/etc/issue"]), (Host.text ["/etc/issue"]).
  split; [reflexivity|]. split; [|vm_compute; reflexivity].
  apply list_elem_of_In. vm_compute. tauto.
Defined.

(** X9: the loop that builds the index opens every [.list] file without
    a handler: one that cannot be read makes [_dpkg_query_S], and with it
    [_is_known_file], raise [IOError] for every path. *)
Theorem unreadable_list_raises (W : World) (p filename content : string) :
  p ∈ glob_glob W "/var/lib/dpkg/info/*.list" →
  read_file W p = None →
  _dpkg_query_S W filename = Raise IOError
  ∧ _is_known_file W filename content = Raise IOError.
Proof.
  intros Hin Hr.
  assert (Hq : _dpkg_query_S W filename = Raise IOError).
  { unfold _dpkg_query_S, _dpkg_query_S_cache.
    by rewrite (dpkg_lists_unreadable W _ _ p Hin Hr). }
  split; [exact Hq|]. unfold _is_known_file. by rewrite Hq.
Qed.

Lemma unreadable_list_raises_witness :
  _dpkg_query_S damaged "/etc/site.conf" = Raise IOError
  ∧ _is_known_file damaged "/etc/site.conf" (Host.text ["listen 8080"])
    = Raise IOError.
Proof.
  apply (unreadable_list_raises damaged "/var/lib/dpkg/info/locked.list").
  - apply list_elem_of_In. vm_compute. tauto.
  - reflexivity.
Defined.

(** ** The candidates and the verdict of the authenticity check *)

Section CandidateFacts.
Context (W : World).

Lemma md5sums_scan_Some suffix ls m :
  md5sums_scan suffix ls = Some m →
  ∃ line, line ∈ ls ∧ Py.endswith line suffix = true ∧ m = Py.take 32 line.
Proof.
  induction ls as [|l ls IH]; simpl; [discriminate|].
  destruct (Py.endswith l suffix) eqn:He.
  - intros [= <-]. exists l. split; [by left|done].
  - intros H. destruct (IH H) as (line & Hin & Hl). exists line.
    split; [by right|done].
Qed.

Lemma md5sums_scan_None suffix ls :
  md5sums_scan suffix ls = None
  ↔ ∀ line, line ∈ ls → Py.endswith line suffix = false.
Proof.
  induction ls as [|l ls IH]; simpl.
  - split; [|done]. intros _ line Hin. by apply elem_of_nil in Hin.
  - destruct (Py.endswith l suffix) eqn:He.
    + split; [discriminate|]. intros H.
      specialize (H l ltac:(by left)). congruence.
    + rewrite IH. split.
      * intros H line Hin.
        apply elem_of_cons in Hin as [->|Hin]; [done|by apply H].
      * intros H line Hin. apply H. by right.
Qed.

Lemma take_length n (s : string) : (String.length (Py.take n s) ≤ n)%nat.
Proof.
  revert s. induction n as [|n IH]; intros [|c s]; simpl; try lia.
  specialize (IH s). lia.
Qed.

End CandidateFacts.

(** X10: a path that no package owns and that has no entry in the static
    table is never known, whatever its content. *)
Theorem unowned_file_not_known (W : World) (filename content : string) :
  _dpkg_query_S W filename = Ok [] →
  MD5SUMS !! filename = None →
  _is_known_file W filename content = Ok false.
Proof.
  intros Hq Ht. unfold _is_known_file. rewrite Hq, bind_Ok_l.
  unfold _get_md5sums, _get_md5sums_list. rewrite Hq, bind_Ok_l, Ht.
  reflexivity.
Qed.

Lemma unowned_file_not_known_witness :
  _is_known_file Host.plain "/etc/site.conf" (Host.text ["listen 8080"])
  = Ok false.
Proof.
  apply unowned_file_not_known; vm_compute; reflexivity.
Defined.

(** X11: a path that [base-files] owns is known whatever its content and
    whatever the ignore rules say. *)
Theorem base_files_always_known (W : World) (filename content : string)
    (packages : list string) :
  _dpkg_query_S W filename = Ok packages →
  "base-files" ∈ packages →
  _is_known_file W filename content = Ok true.
Proof.
  intros Hq Hin. unfold _is_known_file. rewrite Hq, bind_Ok_l.
  assert (He : existsb (String.eqb "base-files") packages = true).
  { apply existsb_exists. exists "base-files".
    split; [by apply list_elem_of_In|apply String.eqb_refl]. }
  by rewrite He.
Qed.

Lemma base_files_always_known_witness :
  _is_known_file Host.custom "/etc/issue" "edited by hand" = Ok true.
Proof.
  apply (base_files_always_known Host.custom "/etc/issue" "edited by hand"
           ["base-files"]).
  - vm_compute. reflexivity.
  - by left.
Defined.

(** X12: the candidates of [_get_md5sums].  For a path that some package
    owns they are the check sums of the status data base for the path
    and what [_dpkg_md5sum] gives for each owner (Python's [None] when it
    finds nothing); the entry of the static table, when there is one, is
    a candidate in every case.  The status data base and the [.md5sums]
    files are not consulted for a path without owner. *)
Theorem get_md5sums_candidates (W : World) (filename : string)
    (packages : list string) (md5sums : gset (option string))
    (m : option string) :
  _dpkg_query_S W filename = Ok packages →
  _get_md5sums W filename = Ok md5sums →
  m ∈ md5sums
  ↔ (packages ≠ []
     ∧ ((∃ x, m = Some x ∧ x ∈ _dpkg_status_md5sum W filename)
        ∨ (∃ package, package ∈ packages
                      ∧ m = _dpkg_md5sum W package filename)))
    ∨ (∃ entry x, MD5SUMS !! filename = Some entry
                  ∧ md5sums_entry W entry = Ok x ∧ m = Some x).
Proof.
  intros Hq Hm. unfold _get_md5sums, _get_md5sums_list in Hm.
  rewrite Hq, bind_Ok_l in Hm.
  set (owned := match packages with
                | [] => []
                | _ => ((Some <$> _dpkg_status_md5sum W filename)
                        ++ ((λ package, _dpkg_md5sum W package filename)
                              <$> packages))%list
                end) in Hm.
  assert (Ho : m ∈ owned
               ↔ packages ≠ []
                 ∧ ((∃ x, m = Some x ∧ x ∈ _dpkg_status_md5sum W filename)
                    ∨ (∃ package, package ∈ packages
                                  ∧ m = _dpkg_md5sum W package filename))).
  { subst owned. destruct packages as [|p0 ps].
    - rewrite elem_of_nil. tauto.
    - rewrite elem_of_app, !list_elem_of_fmap. split.
      + intros [(x & -> & Hx)|(p & -> & Hp)].
        * split; [discriminate|]. left. exists x. split; [reflexivity|exact Hx].
        * split; [discriminate|]. right. exists p. split; [exact Hp|reflexivity].
      + intros [_ [(x & -> & Hx)|(p & Hp & ->)]].
        * left. exists x. split; [reflexivity|exact Hx].
        * right. exists p. split; [reflexivity|exact Hp]. }
  destruct (MD5SUMS !! filename) as [entry|].
  - destruct (md5sums_entry W entry) as [x|e] eqn:He; [|discriminate].
    simpl in Hm. injection Hm as <-.
    rewrite elem_of_list_to_set, elem_of_app, list_elem_of_singleton, Ho.
    split.
    + intros [H| ->]; [by left|]. right. by exists entry, x.
    + intros [H|(entry' & x' & [= <-] & Hx & ->)]; [by left|].
      right. congruence.
  - simpl in Hm. injection Hm as <-.
    rewrite elem_of_list_to_set, Ho. split; [by left|].
    intros [H|(entry' & x' & Habs & _)]; [done|discriminate].
Qed.

Lemma get_md5sums_candidates_witness :
  ∃ md5sums,
    _get_md5sums Host.plain "/etc/issue" = Ok md5sums
    ∧ Some "b779759799b4ec17dd4dab41ad557f49" ∈ md5sums.
Proof.
  destruct (is_Ok_inv (_get_md5sums Host.plain "/etc/issue")) as [md5sums Hm];
    [vm_compute; reflexivity|].
  exists md5sums. split; [exact Hm|].
  apply (proj2 (get_md5sums_candidates Host.plain "/etc/issue" ["base-files"]
                  md5sums _ ltac:(vm_compute; reflexivity) Hm)).
  left. split; [done|]. right. exists "base-files". split; [by left|].
  vm_compute. reflexivity.
Defined.

(** X13: [_dpkg_md5sum] returns the first 32 characters of the first
    line of the package's [.md5sums] file that ends with the path, less
    its leading slash, and a line feed; the line is found by its end, not
    by the whole path.  It returns [None] when the file cannot be read or
    has no such line. *)
Theorem dpkg_md5sum_line (W : World) (package filename : string) :
  (∀ m, _dpkg_md5sum W package filename = Some m →
     (String.length m ≤ 32)%nat
     ∧ ∃ content line,
         read_file W ("/var/lib/dpkg/info/" +:+ package +:+ ".md5sums")
         = Some content
         ∧ line ∈ Py.lines content
         ∧ Py.endswith line (Py.drop 1 filename +:+ String Py.LF "") = true
         ∧ m = Py.take 32 line)
  ∧ (_dpkg_md5sum W package filename = None
     ↔ ∀ content,
         read_file W ("/var/lib/dpkg/info/" +:+ package +:+ ".md5sums")
         = Some content →
         ∀ line, line ∈ Py.lines content →
           Py.endswith line (Py.drop 1 filename +:+ String Py.LF "") = false).
Proof.
  unfold _dpkg_md5sum, open_lines.
  destruct (read_file W _) as [content|]; simpl.
  - split.
    + intros m Hm.
      destruct (md5sums_scan_Some _ _ _ Hm) as (line & Hin & He & ->).
      split; [apply take_length|]. by exists content, line.
    + rewrite md5sums_scan_None. split.
      * intros H c [= <-]. exact H.
      * intros H. by apply H.
  - split; [discriminate|]. split; [discriminate|done].
Qed.

(** ** The status data base *)

Section StatusFacts.
Context (W : World).

Lemma span_app (p : ascii → bool) (s a b : string) :
  span p s = (a, b) → s = a +:+ b ∧ all_chars p a = true.
Proof.
  revert a b. induction s as [|c s IH]; intros a b; simpl.
  - by intros [= <- <-].
  - destruct (p c) eqn:Hp.
    + destruct (span p s) as [a' b'] eqn:Hs. intros [= <- <-].
      destruct (IH a' b' eq_refl) as [-> Ha]. simpl. by rewrite Hp, Ha.
    + by intros [= <- <-].
Qed.

Lemma take_drop n (s : string) : Py.take n s +:+ Py.drop n s = s.
Proof.
  revert s. induction n as [|n IH]; intros [|c s]; try done.
  change (String c (Py.take n s +:+ Py.drop n s) = String c s).
  by rewrite IH.
Qed.

(** What a line that the pattern matches looks like. *)
Lemma status_match_Some line name m :
  status_match line = Some (name, m) →
  (∃ rest, line = " " +:+ name +:+ " " +:+ m +:+ rest)
  ∧ String.length m = 32%nat
  ∧ all_chars is_word m = true
  ∧ all_chars is_path_char name = true.
Proof.
  unfold status_match. destruct line as [|c rest]; [discriminate|].
  destruct (ascii_dec c " ") as [->|Hc].
  2:{ destruct c as [[] [] [] [] [] [] [] []]; try discriminate.
      by destruct Hc. }
  destruct (span is_path_char rest) as [g1 rest1] eqn:Hs.
  apply span_app in Hs as [-> Hg1].
  destruct rest1 as [|c rest2]; [discriminate|].
  destruct (ascii_dec c " ") as [->|Hc].
  2:{ destruct c as [[] [] [] [] [] [] [] []]; try discriminate.
      by destruct Hc. }
  destruct (_ && _) eqn:Hg2; [|discriminate].
  apply andb_true_iff in Hg2 as [Hlen Hw]. apply Nat.eqb_eq in Hlen.
  assert (Hline : String " " (g1 +:+ String " " rest2)
                  = " " +:+ g1 +:+ " " +:+ Py.take 32 rest2
                    +:+ Py.drop 32 rest2).
  { by rewrite take_drop. }
  assert (Hgoal : (∃ rest, String " " (g1 +:+ String " " rest2)
                           = " " +:+ g1 +:+ " " +:+ Py.take 32 rest2 +:+ rest)
                  ∧ String.length (Py.take 32 rest2) = 32%nat
                  ∧ all_chars is_word (Py.take 32 rest2) = true
                  ∧ all_chars is_path_char g1 = true).
  { split; [by exists (Py.drop 32 rest2)|done]. }
  destruct (at_end (Py.drop 32 rest2)).
  - by intros [= <- <-].
  - destruct (Py.drop 32 rest2) as [|c rest4]; [discriminate|].
    destruct c as [[] [] [] [] [] [] [] []]; try discriminate.
    destruct (at_end _); [|discriminate]. by intros [= <- <-].
Qed.

Lemma owners_add_status (cache : gmap string (list string)) line name m :
  m ∈ owners (add_status cache line) name
  ↔ m ∈ owners cache name ∨ status_match line = Some (name, m).
Proof.
  unfold owners, add_status.
  destruct (status_match line) as [[name' m']|]; [|by intuition discriminate].
  destruct (decide (name' = name)) as [->|Hne].
  - destruct (cache !! name) as [l|] eqn:Hl; rewrite lookup_insert_eq; simpl.
    + rewrite elem_of_app, list_elem_of_singleton.
      split; (intros [H|H]; [by left|right; congruence]).
    + rewrite list_elem_of_singleton, elem_of_nil.
      split; [intros ->; by right|intros [[]|H]; congruence].
  - assert (Hk : ∀ v, <[name' := v]> cache !! name = cache !! name)
      by (intros v; by rewrite lookup_insert_ne).
    destruct (cache !! name'); rewrite Hk;
      (split; [by left|intros [H|H]; [done|congruence]]).
Qed.

Lemma owners_fold_add_status ls (cache : gmap string (list string)) name m :
  m ∈ owners (fold_left add_status ls cache) name
  ↔ m ∈ owners cache name
    ∨ ∃ line, line ∈ ls ∧ status_match line = Some (name, m).
Proof.
  revert cache. induction ls as [|l ls IH]; intros cache; simpl.
  - split; [by left|]. intros [H|(line & Hin & _)]; [done|].
    by apply elem_of_nil in Hin.
  - rewrite IH, owners_add_status. split.
    + intros [[H|H]|(line & Hin & H)]; [by left| |].
      * right. exists l. split; [by left|done].
      * right. exists line. split; [by right|done].
    + intros [H|(line & Hin & H)]; [by left; left|].
      apply elem_of_cons in Hin as [->|Hin]; [by left; right|].
      right. by exists line.
Qed.

End StatusFacts.

(** X14: [_dpkg_status_md5sum] returns, for a path, the check sums of
    exactly the lines of [/var/lib/dpkg/status] that the pattern matches
    with the path as first group; each is 32 word characters.  Without a
    readable status file, and for a path the file does not mention, it
    returns the empty list. *)
Theorem dpkg_status_md5sum_lines (W : World) (filename m : string) :
  (m ∈ _dpkg_status_md5sum W filename
   ↔ ∃ content line,
       read_file W "/var/lib/dpkg/status" = Some content
       ∧ line ∈ Py.lines content
       ∧ status_match line = Some (filename, m))
  ∧ (m ∈ _dpkg_status_md5sum W filename →
     String.length m = 32%nat ∧ all_chars is_word m = true)
  ∧ (read_file W "/var/lib/dpkg/status" = None →
     _dpkg_status_md5sum W filename = []).
Proof.
  assert (Hiff : m ∈ _dpkg_status_md5sum W filename
                 ↔ ∃ content line,
                     read_file W "/var/lib/dpkg/status" = Some content
                     ∧ line ∈ Py.lines content
                     ∧ status_match line = Some (filename, m)).
  { unfold _dpkg_status_md5sum, _dpkg_status_md5sum_cache, open_lines.
    destruct (read_file W "/var/lib/dpkg/status") as [content|]; simpl.
    - change (default [] (fold_left add_status (Py.lines content) ∅
                            !! filename))
        with (owners (fold_left add_status (Py.lines content) ∅) filename).
      rewrite owners_fold_add_status. unfold owners at 1.
      rewrite lookup_empty. simpl. rewrite elem_of_nil. split.
      + intros [[]|(line & Hin & H)]. by exists content, line.
      + intros (c & line & [= <-] & Hin & H). right. by exists line.
    - rewrite lookup_empty. simpl. rewrite elem_of_nil. split; [done|].
      intros (c & line & Habs & _). discriminate. }
  split; [exact Hiff|]. split.
  - intros Hin. apply Hiff in Hin as (content & line & _ & _ & Hm).
    apply status_match_Some in Hm. tauto.
  - intros Hr. unfold _dpkg_status_md5sum, _dpkg_status_md5sum_cache,
      open_lines. rewrite Hr. simpl. by rewrite lookup_empty.
Qed.

(** X15: a line of the status data base that the pattern matches is a
    space, the path, a space, a check sum of 32 word characters, and
    what is left of the line; the path holds only word characters,
    slashes, colons, dots and dashes. *)
Theorem status_match_shape (line name m : string) :
  status_match line = Some (name, m) →
  (∃ rest, line = " " +:+ name +:+ " " +:+ m +:+ rest)
  ∧ String.length m = 32%nat
  ∧ all_chars is_word m = true
  ∧ all_chars is_path_char name = true.
Proof. apply status_match_Some. Qed.

Lemma status_match_shape_witness :
  (∃ rest, " /etc/issue b779759799b4ec17dd4dab41ad557f49 obsolete"
           = " " +:+ "/etc/issue" +:+ " "
             +:+ "b779759799b4ec17dd4dab41ad557f49" +:+ rest)
  ∧ String.length "b779759799b4ec17dd4dab41ad557f49" = 32%nat
  ∧ all_chars is_word "b779759799b4ec17dd4dab41ad557f49" = true
  ∧ all_chars is_path_char "/etc/issue" = true.
Proof.
  apply (status_match_shape
           " /etc/issue b779759799b4ec17dd4dab41ad557f49 obsolete").
  vm_compute. reflexivity.
Defined.

(** ** What the scan records, and what it leaves alone *)

Section ScanFacts.
Context (W : World).

Lemma lstat_files_names dirpath filenames files filename s :
  lstat_files W dirpath filenames = Ok files →
  (filename, s) ∈ files →
  ∃ name, name ∈ filenames ∧ filename = Py.path_join dirpath name.
Proof.
  revert files. induction filenames as [|f filenames IH]; intros files H Hin;
    simpl in H.
  - injection H as <-. by apply elem_of_nil in Hin.
  - inv_bind H. injection H as <-.
    apply elem_of_cons in Hin as [Heq|Hin].
    + injection Heq as -> ->. exists f. split; [by left|done].
    + destruct (IH x0 Hx0 Hin) as (name & Hn & ->).
      exists name. split; [by right|done].
Qed.

Lemma lstat_files_all dirpath filenames files name :
  lstat_files W dirpath filenames = Ok files →
  name ∈ filenames →
  is_Some (os_lstat W (Py.path_join dirpath name)).
Proof.
  revert files. induction filenames as [|f filenames IH]; intros files H Hin;
    simpl in H.
  - by apply elem_of_nil in Hin.
  - inv_bind H. apply or_raise_Ok in Hx.
    apply elem_of_cons in Hin as [->|Hin]; [by exists x|].
    by apply (IH x0).
Qed.

Lemma ctimes_dirs_all dirpath dirnames (ctimes ctimes' : gmap Z Z) name :
  ctimes_dirs W dirpath dirnames ctimes = Ok ctimes' →
  name ∈ dirnames →
  is_Some (os_lstat W (Py.path_join dirpath name)).
Proof.
  revert ctimes. induction dirnames as [|d dirnames IH]; intros ctimes H Hin;
    simpl in H.
  - by apply elem_of_nil in Hin.
  - apply bind_Ok in H as (s & Hs & H). apply or_raise_Ok in Hs.
    apply elem_of_cons in Hin as [->|Hin]; [by exists s|].
    by apply (IH _ H).
Qed.

Lemma files_loop_entries ignored ctimes files
    (b b' : gmap string FileRecord) (filename : string) :
  files_loop W ignored ctimes files b = Ok b' →
  b' !! filename = b !! filename
  ∨ ∃ r s, b' !! filename = Some r
           ∧ (filename, s) ∈ files
           ∧ files_entry W ignored ctimes filename s = Ok (Some r).
Proof.
  revert b. induction files as [|[f s] files IH]; intros b H; simpl in H.
  - injection H as <-. by left.
  - apply bind_Ok in H as (r & Hr & H).
    destruct r as [r|].
    + destruct (IH _ H) as [Heq|(r' & s' & Hb & Hin & He)].
      * destruct (decide (f = filename)) as [->|Hne].
        -- right. exists r, s. rewrite Heq, lookup_insert_eq.
           split; [done|]. split; [by left|done].
        -- left. by rewrite Heq, lookup_insert_ne.
      * right. exists r', s'. split; [done|]. split; [by right|done].
    + destruct (IH _ H) as [Heq|(r' & s' & Hb & Hin & He)]; [by left|].
      right. exists r', s'. split; [done|]. split; [by right|done].
Qed.

Lemma files_walk_entries walk (b b' : gmap string FileRecord)
    (filename : string) :
  files_walk W walk b = Ok b' →
  b' !! filename = b !! filename
  ∨ ∃ r dirpath dirnames filenames,
      b' !! filename = Some r
      ∧ (dirpath, dirnames, filenames) ∈ walk
      ∧ recorded_in W dirpath dirnames filenames filename r.
Proof.
  revert b. induction walk as [|[[dirpath dirnames] filenames] walk IH];
    intros b H; simpl in H.
  - injection H as <-. by left.
  - apply bind_Ok in H as (b1 & Hd & H).
    destruct (IH _ H) as [Heq|(r & d & dn & fn & Hb & Hin & Hrec)].
    2:{ right. exists r, d, dn, fn. split; [done|]. split; [by right|done]. }
    rewrite Heq. unfold files_dir in Hd.
    apply bind_Ok in Hd as (ignored & Hig & Hd).
    apply bind_Ok in Hd as (files & Hf & Hd).
    apply bind_Ok in Hd as (ctimes & Hc & Hd).
    destruct (files_loop_entries _ _ _ _ _ filename Hd)
      as [Heq'|(r & s & Hb & Hin & He)]; [by left|].
    right. exists r, dirpath, dirnames, filenames.
    split; [done|]. split; [by left|].
    destruct (lstat_files_names _ _ _ _ _ Hf Hin) as (name & Hn & Hj).
    by exists name, ignored, files, ctimes, s.
Qed.

Lemma files_walk_lstat walk (b b' : gmap string FileRecord)
    dirpath dirnames filenames name :
  files_walk W walk b = Ok b' →
  (dirpath, dirnames, filenames) ∈ walk →
  name ∈ filenames ∨ name ∈ dirnames →
  is_Some (os_lstat W (Py.path_join dirpath name)).
Proof.
  revert b. induction walk as [|[[d dn] fn] walk IH]; intros b H Hin Hname;
    simpl in H.
  - by apply elem_of_nil in Hin.
  - apply bind_Ok in H as (b1 & Hd & H).
    apply elem_of_cons in Hin as [Heq|Hin]; [|by apply (IH _ H)].
    injection Heq as -> -> ->. unfold files_dir in Hd.
    apply bind_Ok in Hd as (ignored & Hig & Hd).
    apply bind_Ok in Hd as (files & Hf & Hd).
    apply bind_Ok in Hd as (ctimes & Hc & Hd).
    destruct Hname as [Hn|Hn].
    + by apply (lstat_files_all _ _ _ _ Hf).
    + by apply (ctimes_dirs_all _ _ _ _ _ Hc).
Qed.

End ScanFacts.

(** X16: the scan stores records only for files that the walk lists;
    the entry of any other path, a directory for one, is left as it was,
    and no entry is ever removed. *)
Theorem only_walked_files_recorded (W : World)
    (b0 b : gmap string FileRecord) (filename : string) :
  files W b0 = Ok b →
  (¬ walked W filename → b !! filename = b0 !! filename)
  ∧ (is_Some (b0 !! filename) → is_Some (b !! filename)).
Proof.
  intros H.
  destruct (files_walk_entries W _ _ _ filename H)
    as [Heq|(r & d & dn & fn & Hb & Hin & Hrec)].
  - by rewrite Heq.
  - split; [|by rewrite Hb]. intros Hnw. destruct Hnw.
    destruct Hrec as (name & _ & _ & _ & _ & Hn & Hj & _).
    by exists d, dn, fn, name.
Qed.

Lemma only_walked_files_recorded_witness :
  ∃ b, files Host.plain ∅ = Ok b ∧ b !! "/etc/app" = None.
Proof.
  destruct (is_Ok_inv (files Host.plain ∅)) as [b Hb];
    [vm_compute; reflexivity|].
  exists b. split; [exact Hb|].
  apply (proj1 (only_walked_files_recorded Host.plain ∅ b "/etc/app" Hb)).
  intros (d & dn & fn & name & Hin & Hn & Hj).
  apply list_elem_of_In in Hin. simpl in Hin.
  destruct Hin as [Heq|[Heq|[]]]; injection Heq as <- <- <-;
    apply list_elem_of_In in Hn; simpl in Hn;
    repeat (destruct Hn as [<-|Hn]; [discriminate Hj|]); destruct Hn.
Defined.

(** X17: a file that is neither a symbolic link nor a regular file (a
    socket, a FIFO, a device) is never recorded. *)
Theorem other_file_types_not_recorded (W : World)
    (b0 b : gmap string FileRecord) (filename : string) (s : stat_result) :
  files W b0 = Ok b →
  os_lstat W filename = Some s →
  S_ISLNK (st_mode s) = false →
  S_ISREG (st_mode s) = false →
  b !! filename = b0 !! filename.
Proof.
  intros H Hs Hl Hr. apply (files_lookup_unrecorded W _ _ _ H).
  intros r (ig & ct & s' & Hs' & He).
  assert (s' = s) as -> by congruence.
  apply files_entry_Some in He as (raw & c & e & _ & _ & _ & _ & Hc & _).
  unfold file_content in Hc. rewrite Hl, Hr in Hc. discriminate.
Qed.

Lemma other_file_types_not_recorded_witness :
  ∃ b,
    files with_devices ∅ = Ok b
    ∧ _ignore with_devices "/etc/app/null" false = Ok false
    ∧ read_file with_devices "/etc/app/null" = Some ""
    ∧ _is_known_file with_devices "/etc/app/null" "" = Ok false
    ∧ b !! "/etc/app/null" = None
    ∧ b !! "/etc/app/log.sock" = None
    ∧ is_Some (b !! "/etc/app/c.conf").
Proof.
  destruct (is_Ok_inv (files with_devices ∅)) as [b Hb];
    [vm_compute; reflexivity|].
  assert (Hc : (λ m : gmap string FileRecord,
                  bool_decide (is_Some (m !! "/etc/app/c.conf")))
               <$> files with_devices ∅ = Ok true) by (vm_compute; reflexivity).
  rewrite Hb in Hc. injection Hc as Hc. apply bool_decide_eq_true in Hc.
  exists b. split; [exact Hb|].
  split; [vm_compute; reflexivity|]. split; [reflexivity|].
  split; [vm_compute; reflexivity|].
  split; [|split; [|exact Hc]].
  - exact (other_file_types_not_recorded with_devices ∅ b "/etc/app/null"
             (mk_stat 8630 0 0 700) Hb eq_refl eq_refl eq_refl).
  - exact (other_file_types_not_recorded with_devices ∅ b "/etc/app/log.sock"
             (mk_stat 49645 0 0 800) Hb eq_refl eq_refl eq_refl).
Defined.

(** X18: a file is not recorded when it cannot be read, when its content
    is known, or when [_ignore] returns ignored for it from either
    starting state. *)
Theorem skipped_files_not_recorded (W : World)
    (b0 b : gmap string FileRecord) (filename : string) :
  files W b0 = Ok b →
  (read_file W filename = None → b !! filename = b0 !! filename)
  ∧ (∀ raw, read_file W filename = Some raw →
       _is_known_file W filename raw = Ok true →
       b !! filename = b0 !! filename)
  ∧ (_ignore W filename false = Ok true →
     _ignore W filename true = Ok true →
     b !! filename = b0 !! filename).
Proof.
  intros H. split; [|split].
  - intros Hr. apply (files_lookup_unrecorded W _ _ _ H).
    intros r (ig & ct & s & _ & He).
    apply files_entry_Some in He as (raw & c & e & _ & Hraw & _).
    congruence.
  - intros raw Hr Hk. apply (files_lookup_unrecorded W _ _ _ H).
    intros r (ig & ct & s & _ & He).
    apply files_entry_Some in He as (raw' & c & e & _ & Hraw & Hk' & _).
    congruence.
  - intros Hf Ht. apply (files_lookup_unrecorded W _ _ _ H).
    intros r (ig & ct & s & _ & He).
    apply files_entry_Some in He as (raw' & c & e & Hig & _).
    destruct (ignore_seed ig ct s); congruence.
Qed.

Lemma skipped_files_not_recorded_witness :
  ∃ b, files Host.plain ∅ = Ok b ∧ b !! "/etc/adduser.conf" = None.
Proof.
  destruct (is_Ok_inv (files Host.plain ∅)) as [b Hb];
    [vm_compute; reflexivity|].
  exists b. split; [exact Hb|].
  apply (proj1 (proj2 (skipped_files_not_recorded Host.plain ∅ b
                         "/etc/adduser.conf" Hb))
           (Host.text ["DSHELL=/bin/bash"])).
  - reflexivity.
  - vm_compute. reflexivity.
Defined.

(** X19: every record the scan stores carries the metadata of the
    file's [lstat]: the mode in octal, which reads back as the mode; the
    name of the owner and of the group, or the numeric id when it has no
    name.  The file is a symbolic link, recorded as [plain], or a regular
    file, recorded as [plain] or [base64]. *)
Theorem record_metadata (W : World) (b0 b : gmap string FileRecord)
    (filename : string) (r : FileRecord) :
  files W b0 = Ok b →
  b0 !! filename = None →
  b !! filename = Some r →
  ∃ s,
    os_lstat W filename = Some s
    ∧ mode r = format_o (st_mode s)
    ∧ (0 ≤ st_mode s →
       OctalString.Raw.to_N (mode r) 0 = Z.to_N (st_mode s))
    ∧ owner r = match pw_name W (st_uid s) with
                | Some name => Name name
                | None => Id (st_uid s)
                end
    ∧ group r = match gr_name W (st_gid s) with
                | Some name => Name name
                | None => Id (st_gid s)
                end
    ∧ (S_ISLNK (st_mode s) = true ∧ encoding r = "plain"
       ∨ S_ISREG (st_mode s) = true
         ∧ (encoding r = "plain" ∨ encoding r = "base64")).
Proof.
  intros H Hb0 Hb.
  destruct (files_lookup_new W _ _ _ _ H Hb0 Hb) as (ig & ct & s & Hs & He).
  apply files_entry_Some in He as (raw & c & e & _ & _ & _ & _ & Hc & ->).
  exists s. split; [done|]. split; [done|]. split.
  { simpl. intros Hm. destruct (st_mode s) as [|p|p]; [done| |lia].
    simpl. by rewrite OctalString.Raw.to_N_of_pos. }
  split; [done|]. split; [done|]. simpl.
  destruct (S_ISLNK (st_mode s)) eqn:Hl.
  - left. split; [done|].
    destruct (os_readlink W filename) as [t|] eqn:Ht.
    + rewrite (file_content_link W _ _ _ _ Hl Ht) in Hc.
      destruct (String.eqb _ t); [discriminate|].
      destruct (Py.startswith t _); [discriminate|]. by injection Hc as <- <-.
    + unfold file_content in Hc. rewrite Hl, Ht in Hc. discriminate.
  - unfold file_content in Hc. rewrite Hl in Hc.
    destruct (S_ISREG (st_mode s)); [|discriminate]. right. split; [done|].
    destruct (decode_utf8 W raw); injection Hc as <- <-; auto.
Qed.

Lemma record_metadata_witness :
  ∃ b s,
    files Host.plain ∅ = Ok b
    ∧ os_lstat Host.plain "/etc/site.conf" = Some s
    ∧ "100644" = format_o (st_mode s)
    ∧ Id 1000 = match pw_name Host.plain (st_uid s) with
                | Some name => Name name
                | None => Id (st_uid s)
                end.
Proof.
  destruct (is_Ok_inv (files Host.plain ∅)) as [b Hb];
    [vm_compute; reflexivity|].
  files_at Hb "/etc/site.conf"
    (Some (mk_file (Unicode [108; 105; 115; 116; 101; 110; 32; 56; 48; 56;
                             48; 10]%N)
             "plain" (Name "root") "100644" (Id 1000))).
  destruct (record_metadata Host.plain ∅ b "/etc/site.conf" _ Hb eq_refl Hk)
    as (s & Hs & Hm & _ & Ho & _).
  exists b, s. split; [exact Hb|]. split; [exact Hs|].
  split; [exact Hm|exact Ho].
Defined.

(** X20: the scan returns only if [os.lstat] succeeded on every file and
    every subdirectory that the walk lists: neither call is guarded, and
    a failure of either ends the scan. *)
Theorem scan_needs_every_lstat (W : World) (b0 b : gmap string FileRecord)
    (dirpath : string) (dirnames filenames : list string) (name : string) :
  files W b0 = Ok b →
  (dirpath, dirnames, filenames) ∈ os_walk W →
  name ∈ filenames ∨ name ∈ dirnames →
  is_Some (os_lstat W (Py.path_join dirpath name)).
Proof. apply files_walk_lstat. Qed.

Lemma scan_needs_every_lstat_witness :
  is_Some (os_lstat Host.plain (Py.path_join "/etc" "app")).
Proof.
  destruct (is_Ok_inv (files Host.plain ∅)) as [b Hb];
    [vm_compute; reflexivity|].
  apply (scan_needs_every_lstat Host.plain ∅ b "/etc" ["app"]
           ["adduser.conf"; "fuse.conf"; "issue"; "site.conf"; "vtrgb"]
           "app" Hb).
  - by left.
  - right. by left.
Defined.

(** X21: in a directory that [_ignore] ignores, every file starts as
    ignored: it is recorded only if a negated rule re-includes it, that
    is, not when [_ignore], started as ignored, returns ignored. *)
Theorem ignored_directory_seeds_files (W : World)
    (b0 b : gmap string FileRecord) (filename : string) :
  files W b0 = Ok b →
  (∀ dirpath dirnames filenames name,
     (dirpath, dirnames, filenames) ∈ os_walk W →
     name ∈ filenames →
     filename = Py.path_join dirpath name →
     _ignore W dirpath false = Ok true) →
  _ignore W filename true = Ok true →
  b !! filename = b0 !! filename.
Proof.
  intros H Hdir Hig.
  destruct (files_walk_entries W _ _ _ filename H)
    as [Heq|(r & d & dn & fn & Hb & Hin & Hrec)]; [done|].
  destruct Hrec as (name & ig & fs & ct & s & Hn & Hj & Hd & _ & _ & _ & He).
  rewrite (Hdir d dn fn name Hin Hn Hj) in Hd. injection Hd as <-.
  apply files_entry_Some in He as (raw & c & e & Hi & _).
  unfold ignore_seed in Hi. simpl in Hi. congruence.
Qed.

Lemma ignored_directory_seeds_files_witness :
  ∃ b, files app_ignored ∅ = Ok b ∧ b !! "/etc/app/key.bin" = None.
Proof.
  destruct (is_Ok_inv (files app_ignored ∅)) as [b Hb];
    [vm_compute; reflexivity|].
  exists b. split; [exact Hb|].
  apply (ignored_directory_seeds_files app_ignored ∅ b "/etc/app/key.bin" Hb).
  - intros d dn fn name Hin Hn Hj.
    apply list_elem_of_In in Hin. simpl in Hin.
    destruct Hin as [Heq|[Heq|[]]]; injection Heq as <- <- <-.
    + apply list_elem_of_In in Hn. simpl in Hn.
      repeat (destruct Hn as [<-|Hn]; [discriminate Hj|]). destruct Hn.
    + vm_compute. reflexivity.
  - vm_compute. reflexivity.
Defined.
